(** * Odometer plugin (odometer.c): a shallow embedding and its properties

    The plugin keeps cumulative run time of the motors and of the spindle and
    the distance travelled per axis, and stores them in two slots of the
    non-volatile storage (NVS).  The file-scope statics of odometer.c and the
    part of the host (grbl/hal) the plugin touches are explicit records; every
    C function is a function from state to state. *)

From Stdlib Require Import ZArith List String Ascii Bool Lia.
From Stdlib Require Import Floats.SpecFloat.
From stdpp Require Import base gmap list strings pretty.

Local Open Scope Z_scope.

(** ** Machine arithmetic *)

(** [uint32_t] and [uint64_t] values are integers; every operation that can
    leave the range wraps around explicitly. *)
Definition u32 (z : Z) : Z := z mod 2 ^ 32.
Definition u64 (z : Z) : Z := z mod 2 ^ 64.

(** C [float] is IEEE 754 binary32: 24 bits of precision, infinities at
    exponent 128, round to nearest even. *)
Definition float : Type := spec_float.
Definition f32_add : float -> float -> float := SFadd 24 128.
Definition f32_div : float -> float -> float := SFdiv 24 128.
(** The conversion [(float)n] of an integer. *)
Definition f32_of_Z (n : Z) : float := binary_normalize 24 128 n 0 false.
Definition f32_zero : float := S754_zero false.

#[global] Instance float_eq_dec : EqDecision float.
Proof. solve_decision. Defined.

(** ** Strings as C sees them *)

(** A C string ends at its first NUL. *)
Fixpoint c_string (s : string) : string :=
  match s with
  | EmptyString => EmptyString
  | String c r => if Ascii.eqb c zero then EmptyString else String c (c_string r)
  end.

(** [strcmp(a, b) == 0]. *)
Definition strcmp0 (a b : string) : bool := String.eqb (c_string a) (c_string b).

(** The [CAPS] macro of the host: letters a..z have bit 5 cleared. *)
Definition CAPS (c : ascii) : ascii :=
  let n := N_of_ascii c in
  if (97 <=? n)%N && (n <=? 122)%N then ascii_of_N (N.land n 95) else c.

(** Modelled from the spec: [strcaps] of the host, the case-normalization of a
    command argument, applied in place up to the terminating NUL. *)
Fixpoint strcaps (s : string) : string :=
  match s with
  | EmptyString => EmptyString
  | String c r => if Ascii.eqb c zero then s else String (CAPS c) (strcaps r)
  end.

(** [%ld] applied to a [uint32_t] on the 32-bit targets of the host: the bits
    are read as a signed long. *)
Definition as_long (v : Z) : Z := if v <? 2 ^ 31 then v else v - 2 ^ 32.
Definition fmt_ld (v : Z) : string := pretty (as_long v).

(** [%.2ld]: at least two digits, padded with zeros after the sign. *)
Definition pad2 (digits : string) : string :=
  if (String.length digits <? 2)%nat then "0" +:+ digits else digits.
Definition fmt_ld_2 (v : Z) : string :=
  let x := as_long v in
  if x <? 0 then "-" +:+ pad2 (pretty (- x)) else pad2 (pretty x).

(** ** Configuration of the build *)

(** Constants, tables and helpers of the host headers that odometer.c uses. *)
Class Config := {
  (** number of axes; the pulse hook knows X, Y, Z and the optional A, B, C *)
  N_AXIS : nat;
  N_AXIS_range : (3 <= N_AXIS <= 6)%nat;
  (** [sizeof(odometer_data_t)] *)
  sizeof_odometer_data_t : Z;
  NVS_SIZE : Z;
  GRBL_NVS_SIZE : Z;
  NVS_CRC_BYTES : Z;
  (** a slot is not empty, and two slots can be counted in 32 bits *)
  slot_size_range : 0 < sizeof_odometer_data_t + NVS_CRC_BYTES < 2 ^ 31;
  (** bits of [sys_state_t] *)
  STATE_HOMING : Z;
  STATE_CYCLE : Z;
  STATE_JOG : Z;
  STATE_SAFETY_DOOR : Z;
  (** [axis_letter[idx]] and [ftoa(value, decimals)] of the host *)
  axis_letter : nat -> string;
  ftoa : float -> nat -> string
}.

(** ** Data model *)

Record odometer_data_t := {
  motors : Z;                 (* uint64_t *)
  spindle : Z;                (* uint64_t *)
  distance : list float       (* float distance[N_AXIS] *)
}.

#[global] Instance odometer_data_eq_dec : EqDecision odometer_data_t.
Proof. solve_decision. Defined.

Inductive nvs_type := NVS_None | NVS_EEPROM | NVS_FRAM | NVS_Flash | NVS_Emulated.

#[global] Instance nvs_type_eq_dec : EqDecision nvs_type.
Proof. solve_decision. Defined.

Inductive nvs_transfer_result_t := NVS_TransferResult_Failed | NVS_TransferResult_OK.

(** The codes of the host; those the file does not name are errors. *)
Inductive status_code_t :=
| Status_OK
| Status_Error (code : positive)
| Status_Unhandled.

Inductive message_type_t := Message_Plain | Message_Warning.

(** Function pointers: NULL, a handler of the host or of another plugin, or
    one of the handlers of this file. *)
Inductive fnptr :=
| fn_null
| fn_host (id : nat)
| fn_stepperPulseStart
| fn_onStateChanged
| fn_onSpindleSetState
| fn_onSpindleSelected
| fn_onSettingsChanged
| fn_onReportOptions.

#[global] Instance fnptr_eq_dec : EqDecision fnptr.
Proof. solve_decision. Defined.

Inductive task_t := odometers_write_task.

(** What a call through a function pointer was given. *)
Inductive call_arg :=
| arg_stepper (step_out : Z)
| arg_state (sys_state : Z)
| arg_spindle_state (on : bool)
| arg_spindle (id : Z)
| arg_settings
| arg_newopt (newopt : bool).

(** Everything the plugin does to the outside, in order. *)
Inductive effect :=
| NvsWrite (address : Z) (data : odometer_data_t)
| ReportMessage (msg : string) (type : message_type_t)
| StreamWrite (s : string)
| ReportPlugin (name version : string)
| TaskAddImmediate (t : task_t)
| TaskRunOnStartup (warning : string)
| RegisterCommands (command : string)
| Call (f : fnptr) (a : call_arg).

(** The saved entry points of the file. *)
Record saved_ptrs := {
  stepper_pulse_start : fnptr;
  on_state_change : fnptr;
  on_spindle_selected : fnptr;
  spindle_set_state_ : fnptr;
  settings_changed : fnptr;
  on_report_options : fnptr
}.

(** The file-scope and function-scope statics of odometer.c. *)
Record statics := {
  steps : list Z;                     (* uint32_t steps[N_AXIS] *)
  odometer_changed : bool;
  odometers_address : Z;
  odometers_address_prv : Z;
  odometers : odometer_data_t;
  odometers_prv : odometer_data_t;
  nvs : nvs_type;                     (* nvs.type; its functions are the backend below *)
  saved : saved_ptrs;
  state_ms : Z;                       (* static ms of onStateChanged *)
  spindle_ms : Z                      (* static ms of onSpindleSetState *)
}.

(** The entry points of the host that the plugin wraps. *)
Record entry_points := {
  grbl_on_state_change : fnptr;
  grbl_on_report_options : fnptr;
  grbl_on_spindle_selected : fnptr;
  hal_settings_changed : fnptr;
  hal_stepper_pulse_start : fnptr
}.

Record spindle_ptrs_t := {
  spindle_id : Z;
  set_state : fnptr
}.

(** The host as far as the plugin reads or writes it. *)
Record host := {
  entries : entry_points;
  driver_cap_odometers : bool;        (* hal.driver_cap.odometers *)
  driver_area_size : Z;               (* hal.nvs.driver_area.size *)
  physical_nvs : nvs_type;            (* nvs_buffer_get_physical()->type *)
  nvs_mem : gmap Z odometer_data_t;   (* records with a valid checksum, by address *)
  steps_per_mm : list float;          (* settings.axis[idx].steps_per_mm *)
  selected_spindle : spindle_ptrs_t;
  trace : list effect
}.

Record state := {
  st : statics;
  env : host
}.

(** ** Field updates *)

Definition set_steps (v : list Z) (m : statics) : statics :=
  {| steps := v; odometer_changed := odometer_changed m;
     odometers_address := odometers_address m;
     odometers_address_prv := odometers_address_prv m;
     odometers := odometers m; odometers_prv := odometers_prv m; nvs := nvs m;
     saved := saved m; state_ms := state_ms m; spindle_ms := spindle_ms m |}.

Definition set_odometer_changed (v : bool) (m : statics) : statics :=
  {| steps := steps m; odometer_changed := v;
     odometers_address := odometers_address m;
     odometers_address_prv := odometers_address_prv m;
     odometers := odometers m; odometers_prv := odometers_prv m; nvs := nvs m;
     saved := saved m; state_ms := state_ms m; spindle_ms := spindle_ms m |}.

Definition set_addresses (a p : Z) (m : statics) : statics :=
  {| steps := steps m; odometer_changed := odometer_changed m;
     odometers_address := a; odometers_address_prv := p;
     odometers := odometers m; odometers_prv := odometers_prv m; nvs := nvs m;
     saved := saved m; state_ms := state_ms m; spindle_ms := spindle_ms m |}.

Definition set_odometers (v : odometer_data_t) (m : statics) : statics :=
  {| steps := steps m; odometer_changed := odometer_changed m;
     odometers_address := odometers_address m;
     odometers_address_prv := odometers_address_prv m;
     odometers := v; odometers_prv := odometers_prv m; nvs := nvs m;
     saved := saved m; state_ms := state_ms m; spindle_ms := spindle_ms m |}.

Definition set_odometers_prv (v : odometer_data_t) (m : statics) : statics :=
  {| steps := steps m; odometer_changed := odometer_changed m;
     odometers_address := odometers_address m;
     odometers_address_prv := odometers_address_prv m;
     odometers := odometers m; odometers_prv := v; nvs := nvs m;
     saved := saved m; state_ms := state_ms m; spindle_ms := spindle_ms m |}.

Definition set_nvs (v : nvs_type) (m : statics) : statics :=
  {| steps := steps m; odometer_changed := odometer_changed m;
     odometers_address := odometers_address m;
     odometers_address_prv := odometers_address_prv m;
     odometers := odometers m; odometers_prv := odometers_prv m; nvs := v;
     saved := saved m; state_ms := state_ms m; spindle_ms := spindle_ms m |}.

Definition set_saved (v : saved_ptrs) (m : statics) : statics :=
  {| steps := steps m; odometer_changed := odometer_changed m;
     odometers_address := odometers_address m;
     odometers_address_prv := odometers_address_prv m;
     odometers := odometers m; odometers_prv := odometers_prv m; nvs := nvs m;
     saved := v; state_ms := state_ms m; spindle_ms := spindle_ms m |}.

Definition set_state_ms (v : Z) (m : statics) : statics :=
  {| steps := steps m; odometer_changed := odometer_changed m;
     odometers_address := odometers_address m;
     odometers_address_prv := odometers_address_prv m;
     odometers := odometers m; odometers_prv := odometers_prv m; nvs := nvs m;
     saved := saved m; state_ms := v; spindle_ms := spindle_ms m |}.

Definition set_spindle_ms (v : Z) (m : statics) : statics :=
  {| steps := steps m; odometer_changed := odometer_changed m;
     odometers_address := odometers_address m;
     odometers_address_prv := odometers_address_prv m;
     odometers := odometers m; odometers_prv := odometers_prv m; nvs := nvs m;
     saved := saved m; state_ms := state_ms m; spindle_ms := v |}.

Definition set_entries (v : entry_points) (h : host) : host :=
  {| entries := v; driver_cap_odometers := driver_cap_odometers h;
     driver_area_size := driver_area_size h; physical_nvs := physical_nvs h;
     nvs_mem := nvs_mem h; steps_per_mm := steps_per_mm h;
     selected_spindle := selected_spindle h; trace := trace h |}.

Definition set_driver_cap_odometers (v : bool) (h : host) : host :=
  {| entries := entries h; driver_cap_odometers := v;
     driver_area_size := driver_area_size h; physical_nvs := physical_nvs h;
     nvs_mem := nvs_mem h; steps_per_mm := steps_per_mm h;
     selected_spindle := selected_spindle h; trace := trace h |}.

Definition set_nvs_mem (v : gmap Z odometer_data_t) (h : host) : host :=
  {| entries := entries h; driver_cap_odometers := driver_cap_odometers h;
     driver_area_size := driver_area_size h; physical_nvs := physical_nvs h;
     nvs_mem := v; steps_per_mm := steps_per_mm h;
     selected_spindle := selected_spindle h; trace := trace h |}.

Definition set_selected_spindle (v : spindle_ptrs_t) (h : host) : host :=
  {| entries := entries h; driver_cap_odometers := driver_cap_odometers h;
     driver_area_size := driver_area_size h; physical_nvs := physical_nvs h;
     nvs_mem := nvs_mem h; steps_per_mm := steps_per_mm h;
     selected_spindle := v; trace := trace h |}.

Definition set_trace (v : list effect) (h : host) : host :=
  {| entries := entries h; driver_cap_odometers := driver_cap_odometers h;
     driver_area_size := driver_area_size h; physical_nvs := physical_nvs h;
     nvs_mem := nvs_mem h; steps_per_mm := steps_per_mm h;
     selected_spindle := selected_spindle h; trace := v |}.

(** Updates of one half of the state. *)
Definition on_st (f : statics -> statics) (s : state) : state :=
  {| st := f (st s); env := env s |}.
Definition on_env (f : host -> host) (s : state) : state :=
  {| st := st s; env := f (env s) |}.

(** An effect is appended to the trace. *)
Definition emit (e : effect) (s : state) : state :=
  on_env (fun h => set_trace (trace h ++ [e]) h) s.

(** A call through a pointer that may be NULL. *)
Definition call_if_set (f : fnptr) (a : call_arg) (s : state) : state :=
  match f with
  | fn_null => s
  | _ => emit (Call f a) s
  end.

(** Array reads; an index is always below [N_AXIS] in the source. *)
Definition steps_at (idx : nat) (l : list Z) : Z := default 0 (l !! idx).
Definition float_at (idx : nat) (l : list float) : float := default f32_zero (l !! idx).

(** ** The storage backend *)

(** Modelled from the spec: the backend of [nvs.memcpy_to_nvs] and
    [nvs.memcpy_from_nvs] with checksum. A write stores the record under its
    address and is reliable; a read succeeds where a record with a valid
    checksum is stored and copies it to the destination; otherwise it fails
    and delivers nothing. The result is the destination after the call and
    the transfer result. *)
Definition memcpy_to_nvs (address : Z) (data : odometer_data_t) (s : state) : state :=
  emit (NvsWrite address data)
       (on_env (fun h => set_nvs_mem (<[address := data]> (nvs_mem h)) h) s).

Definition memcpy_from_nvs (destination : odometer_data_t) (source : Z) (s : state)
  : odometer_data_t * nvs_transfer_result_t :=
  match nvs_mem (env s) !! source with
  | Some data => (data, NVS_TransferResult_OK)
  | None => (destination, NVS_TransferResult_Failed)
  end.

(** ** The functions of odometer.c *)

Section Odometer.
Context {cfg : Config}.

Definition X_AXIS : nat := 0.
Definition Y_AXIS : nat := 1.
Definition Z_AXIS : nat := 2.
Definition A_AXIS : nat := 3.
Definition B_AXIS : nat := 4.
Definition C_AXIS : nat := 5.

(** [steps[idx]++] on a [uint32_t]. *)
Definition incr (idx : nat) (l : list Z) : list Z :=
  <[idx := u32 (steps_at idx l + 1)]> l.

(** [if(stepper->step_out.<axis>) steps[idx]++;] the signals are the bits of
    the mask, bit [idx] for axis [idx]. *)
Definition count_step (step_out : Z) (idx : nat) (s : state) : state :=
  if Z.testbit step_out (Z.of_nat idx)
  then on_st (fun m => set_steps (incr idx (steps m)) m) s
  else s.

Definition stepperPulseStart (step_out : Z) (s : state) : state :=
  let s := on_st (set_odometer_changed true) s in
  let s := count_step step_out X_AXIS s in
  let s := count_step step_out Y_AXIS s in
  let s := count_step step_out Z_AXIS s in
  let s := if (A_AXIS <? N_AXIS)%nat then count_step step_out A_AXIS s else s in
  let s := if (B_AXIS <? N_AXIS)%nat then count_step step_out B_AXIS s else s in
  let s := if (C_AXIS <? N_AXIS)%nat then count_step step_out C_AXIS s else s in
  emit (Call (stepper_pulse_start (saved (st s))) (arg_stepper step_out)) s.

(** [state & (STATE_CYCLE|STATE_JOG|STATE_HOMING|STATE_SAFETY_DOOR)] *)
Definition in_motion (sys_state : Z) : bool :=
  negb (Z.land sys_state
          (Z.lor (Z.lor (Z.lor STATE_CYCLE STATE_JOG) STATE_HOMING) STATE_SAFETY_DOOR) =? 0).

(** The body of the do-while loop for one index, on the step counters and the
    distances. *)
Definition flush_axis (spm : list float) (idx : nat) (sd : list Z * list float)
  : list Z * list float :=
  let '(stp, dist) := sd in
  if steps_at idx stp =? 0 then (stp, dist)
  else (<[idx := 0]> stp,
        <[idx := f32_add (float_at idx dist)
                   (f32_div (f32_of_Z (steps_at idx stp)) (float_at idx spm))]> dist).

(** [do { if(steps[--idx]) ... } while(idx);] entered with [idx] at least 1. *)
Fixpoint flush_steps (spm : list float) (idx : nat) (sd : list Z * list float)
  : list Z * list float :=
  match idx with
  | O => sd
  | S i => flush_steps spm i (flush_axis spm i sd)
  end.

(** [now] is what [hal.get_elapsed_ticks()] returns in this call. *)
Definition onStateChanged (sys_state now : Z) (s : state) : state :=
  let s :=
    if in_motion sys_state then on_st (set_state_ms now) s
    else if odometer_changed (st s) then
      let s := on_st (set_odometer_changed false) s in
      let elapsed := u32 (now - state_ms (st s)) in
      let o := odometers (st s) in
      let o := {| motors := u64 (motors o + elapsed); spindle := spindle o;
                  distance := distance o |} in
      let sd := flush_steps (steps_per_mm (env s)) N_AXIS (steps (st s), distance o) in
      let o := {| motors := motors o; spindle := spindle o; distance := snd sd |} in
      let s := on_st (fun m => set_odometers o (set_steps (fst sd) m)) s in
      memcpy_to_nvs (odometers_address (st s)) (odometers (st s)) s
    else s in
  call_if_set (on_state_change (saved (st s))) (arg_state sys_state) s.

(** Called by the foreground process. *)
Definition odometers_write (s : state) : state :=
  memcpy_to_nvs (odometers_address (st s)) (odometers (st s)) s.

(** [on] is [state.on]. *)
Definition onSpindleSetState (on : bool) (now : Z) (s : state) : state :=
  let s := emit (Call (spindle_set_state_ (saved (st s))) (arg_spindle_state on)) s in
  if on then on_st (set_spindle_ms now) s
  else if negb (spindle_ms (st s) =? 0) then
    let elapsed := u32 (now - spindle_ms (st s)) in
    let o := odometers (st s) in
    let o := {| motors := motors o; spindle := u64 (spindle o + elapsed);
                distance := distance o |} in
    let s := on_st (fun m => set_spindle_ms 0 (set_odometers o m)) s in
    emit (TaskAddImmediate odometers_write_task) s
  else s.

(** The spindle passed by pointer is the selected spindle of the host. *)
Definition onSpindleSelected (s : state) : state :=
  let sp := selected_spindle (env s) in
  let s :=
    if (spindle_id sp =? 0) && negb (bool_decide (set_state sp = fn_onSpindleSetState)) then
      let p := saved (st s) in
      let s := on_st (set_saved
                 {| stepper_pulse_start := stepper_pulse_start p;
                    on_state_change := on_state_change p;
                    on_spindle_selected := on_spindle_selected p;
                    spindle_set_state_ := set_state sp;
                    settings_changed := settings_changed p;
                    on_report_options := on_report_options p |}) s in
      on_env (set_selected_spindle
                {| spindle_id := spindle_id sp; set_state := fn_onSpindleSetState |}) s
    else s in
  call_if_set (on_spindle_selected (saved (st s))) (arg_spindle (spindle_id sp)) s.

(** Reclaim entry points that may have been changed on settings change. *)
Definition onSettingsChanged (s : state) : state :=
  let s := emit (Call (settings_changed (saved (st s))) arg_settings) s in
  let e := entries (env s) in
  if bool_decide (hal_stepper_pulse_start e = fn_stepperPulseStart) then s
  else
    let p := saved (st s) in
    let s := on_st (set_saved
               {| stepper_pulse_start := hal_stepper_pulse_start e;
                  on_state_change := on_state_change p;
                  on_spindle_selected := on_spindle_selected p;
                  spindle_set_state_ := spindle_set_state_ p;
                  settings_changed := settings_changed p;
                  on_report_options := on_report_options p |}) s in
    on_env (set_entries
              {| grbl_on_state_change := grbl_on_state_change e;
                 grbl_on_report_options := grbl_on_report_options e;
                 grbl_on_spindle_selected := grbl_on_spindle_selected e;
                 hal_settings_changed := hal_settings_changed e;
                 hal_stepper_pulse_start := fn_stepperPulseStart |}) s.

(** [memset(&odometers, 0, sizeof(odometer_data_t))] *)
Definition zero_record : odometer_data_t :=
  {| motors := 0; spindle := 0; distance := replicate N_AXIS f32_zero |}.

Definition odometer_data_reset (backup : bool) (s : state) : state :=
  let s :=
    if backup then
      let s := on_st (fun m => set_odometers_prv (odometers m) m) s in
      memcpy_to_nvs (odometers_address_prv (st s)) (odometers_prv (st s)) s
    else s in
  let s := on_st (set_odometers zero_record) s in
  memcpy_to_nvs (odometers_address (st s)) (odometers (st s)) s.

(** The two [H:MM] lines; [hr] and [min] are [uint32_t]. *)
Definition hours_line (label : string) (ms : Z) : string :=
  let hr := u32 (ms / 3600000) in
  let min := u32 ((ms / 60000) mod 60) in
  label +:+ " " +:+ fmt_ld hr +:+ ":" +:+ fmt_ld_2 min.

Definition odometer_line (o : odometer_data_t) (idx : nat) : string :=
  "ODOMETER" +:+ axis_letter idx +:+ " "
    +:+ ftoa (f32_div (float_at idx (distance o)) (f32_of_Z 1000)) 1.

Definition odometers_report (o : odometer_data_t) (s : state) : state :=
  let s := emit (ReportMessage (hours_line "SPINDLEHRS" (spindle o)) Message_Plain) s in
  let s := emit (ReportMessage (hours_line "MOTORHRS" (motors o)) Message_Plain) s in
  foldl (fun s idx => emit (ReportMessage (odometer_line o idx) Message_Plain) s)
        s (seq 0 N_AXIS).

(** [args] is [None] for a NULL pointer. The capitalised copy of the
    argument stays with the caller. *)
Definition odometer_command (sys_state : Z) (args : option string) (s : state)
  : status_code_t * state :=
  match args with
  | None => (Status_OK, odometers_report (odometers (st s)) s)
  | Some args =>
    let args := strcaps args in
    let '(retval, s) :=
      if strcmp0 args "PREV" then
        let '(data, result) :=
          memcpy_from_nvs (odometers_prv (st s)) (odometers_address_prv (st s)) s in
        let s := on_st (set_odometers_prv data) s in
        (Status_OK,
         match result with
         | NVS_TransferResult_OK => odometers_report (odometers_prv (st s)) s
         | NVS_TransferResult_Failed =>
           emit (ReportMessage "Previous odometer values not available" Message_Warning) s
         end)
      else (Status_Unhandled, s) in
    if strcmp0 args "RST" then (Status_OK, odometer_data_reset true s)
    else (retval, s)
  end.

Definition onReportOptions (newopt : bool) (s : state) : state :=
  let s := emit (Call (on_report_options (saved (st s))) (arg_newopt newopt)) s in
  if newopt then emit (StreamWrite ",ODO") s
  else emit (ReportPlugin "Odometers" "0.08") s.

(** The free room above the settings of the host and the driver area, and
    the room two slots need, both as the comparison sees them: unsigned, 32
    bits wide. *)
Definition nvs_free (s : state) : Z :=
  u32 (NVS_SIZE - GRBL_NVS_SIZE - driver_area_size (env s)).
Definition slot_size : Z := sizeof_odometer_data_t + NVS_CRC_BYTES.
Definition nvs_needed : Z := u32 (slot_size * 2).

Definition odometer_init (s : state) : state :=
  let s := on_st (set_nvs (physical_nvs (env s))) s in
  if negb (bool_decide (nvs (st s) = NVS_EEPROM) || bool_decide (nvs (st s) = NVS_FRAM)) then
    emit (TaskRunOnStartup "EEPROM or FRAM is required for odometers!") s
  else if nvs_free s <? nvs_needed then
    emit (TaskRunOnStartup "Not enough NVS storage for odometers!") s
  else
    let address := u32 (NVS_SIZE - slot_size) in
    let s := on_st (set_addresses address (u32 (address - slot_size))) s in
    let '(data, result) :=
      memcpy_from_nvs (odometers (st s)) (odometers_address (st s)) s in
    let s := on_st (set_odometers data) s in
    let s :=
      match result with
      | NVS_TransferResult_OK => s
      | NVS_TransferResult_Failed => odometer_data_reset false s
      end in
    let s := on_env (set_driver_cap_odometers true) s in
    let e := entries (env s) in
    let p := saved (st s) in
    let s := on_st (set_saved
               {| stepper_pulse_start := hal_stepper_pulse_start e;
                  on_state_change := grbl_on_state_change e;
                  on_spindle_selected := grbl_on_spindle_selected e;
                  spindle_set_state_ := spindle_set_state_ p;
                  settings_changed := hal_settings_changed e;
                  on_report_options := grbl_on_report_options e |}) s in
    let s := on_env (set_entries
               {| grbl_on_state_change := fn_onStateChanged;
                  grbl_on_report_options := fn_onReportOptions;
                  grbl_on_spindle_selected := fn_onSpindleSelected;
                  hal_settings_changed := fn_onSettingsChanged;
                  hal_stepper_pulse_start := fn_stepperPulseStart |}) s in
    emit (RegisterCommands "ODOMETERS") s.

(** ** Runs of the plugin *)

(** The statics before [odometer_init]: zero-initialised. *)
Definition boot_statics : statics :=
  {| steps := replicate N_AXIS 0; odometer_changed := false;
     odometers_address := 0; odometers_address_prv := 0;
     odometers := zero_record; odometers_prv := zero_record; nvs := NVS_None;
     saved := {| stepper_pulse_start := fn_null; on_state_change := fn_null;
                 on_spindle_selected := fn_null; spindle_set_state_ := fn_null;
                 settings_changed := fn_null; on_report_options := fn_null |};
     state_ms := 0; spindle_ms := 0 |}.

Definition boot (h : host) : state := {| st := boot_statics; env := h |}.

(** The entry points through which the host runs the plugin after
    initialisation. *)
Inductive op :=
| op_pulse (step_out : Z)
| op_state_changed (sys_state now : Z)
| op_odometers_write
| op_spindle_set_state (on : bool) (now : Z)
| op_spindle_selected (sp : spindle_ptrs_t)
| op_settings_changed
| op_command (sys_state : Z) (args : option string)
| op_report_options (newopt : bool).

Definition step (o : op) (s : state) : state :=
  match o with
  | op_pulse step_out => stepperPulseStart step_out s
  | op_state_changed sys_state now => onStateChanged sys_state now s
  | op_odometers_write => odometers_write s
  | op_spindle_set_state on now => onSpindleSetState on now s
  | op_spindle_selected sp => onSpindleSelected (on_env (set_selected_spindle sp) s)
  | op_settings_changed => onSettingsChanged s
  | op_command sys_state args => snd (odometer_command sys_state args s)
  | op_report_options newopt => onReportOptions newopt s
  end.

(** Initialisation went through to the registration of the command. *)
Definition init_ok (h : host) : bool :=
  (bool_decide (physical_nvs h = NVS_EEPROM) || bool_decide (physical_nvs h = NVS_FRAM))
  && negb (nvs_free (boot h) <? nvs_needed).

Inductive reachable : state -> Prop :=
| reachable_init (h : host) :
    init_ok h = true -> reachable (odometer_init (boot h))
| reachable_step (o : op) (s : state) :
    reachable s -> reachable (step o s).

(** ** Vocabulary of the properties *)

Definition report_lines (o : odometer_data_t) : list effect :=
  ReportMessage (hours_line "SPINDLEHRS" (spindle o)) Message_Plain
  :: ReportMessage (hours_line "MOTORHRS" (motors o)) Message_Plain
  :: map (fun idx => ReportMessage (odometer_line o idx) Message_Plain) (seq 0 N_AXIS).

Definition emit_all (l : list effect) (s : state) : state :=
  on_env (fun h => set_trace (trace h ++ l) h) s.

(** The state after the dirty flag was set and the counters were replaced. *)
Definition pulsed (stp : list Z) (s : state) : state :=
  on_st (fun m => set_steps stp (set_odometer_changed true m)) s.

(** The calls a notification is forwarded with: none through a NULL pointer. *)
Definition forwarded (f : fnptr) (a : call_arg) : list effect :=
  match f with
  | fn_null => []
  | _ => [Call f a]
  end.

(** The ticks an operation adds to a counter when it adds any. *)
Definition elapsed_of (o : op) (s : state) : Z :=
  match o with
  | op_state_changed _ now => u32 (now - state_ms (st s))
  | op_spindle_set_state _ now => u32 (now - spindle_ms (st s))
  | _ => 0
  end.

(** The RST form of the command, the only explicit reset after
    initialisation. *)
Definition is_reset (o : op) : bool :=
  match o with
  | op_command _ (Some args) => strcmp0 (strcaps args) "RST"
  | _ => false
  end.

(** A run of operations, oldest first. *)
Fixpoint run (l : list op) (s : state) : state :=
  match l with
  | [] => s
  | o :: r => run r (step o s)
  end.

(** Operations that leave pending steps pending: all but a notification of
    a state without motion and a reset. *)
Definition keeps_pending (o : op) : bool :=
  match o with
  | op_state_changed sys_state _ => in_motion sys_state
  | _ => negb (is_reset o)
  end.

(** A step pulse with the signal of axis [X] set. *)
Definition pulse_on (X : nat) (o : op) : bool :=
  match o with
  | op_pulse step_out => Z.testbit step_out (Z.of_nat X)
  | _ => false
  end.

Definition is_pulse (o : op) : bool :=
  match o with
  | op_pulse _ => true
  | _ => false
  end.

(** The number of step pulses for axis [X] in a run. *)
Fixpoint pulses_on (X : nat) (l : list op) : Z :=
  match l with
  | [] => 0
  | o :: r => (if pulse_on X o then 1 else 0) + pulses_on X r
  end.

(** What the flush leaves in the distance of an axis with [n] pending
    steps: nothing new for none, else the single-precision sum of the old
    distance and the single-precision quotient of the steps by the scale. *)
Definition flushed (d : float) (n : Z) (scale : float) : float :=
  if n =? 0 then d else f32_add d (f32_div (f32_of_Z n) scale).

(** The record stored in the previous slot, if any. *)
Definition previous_slot (s : state) : option odometer_data_t :=
  nvs_mem (env s) !! odometers_address_prv (st s).

(** The number of writes to an address in a trace. *)
Fixpoint writes_to (address : Z) (t : list effect) : nat :=
  match t with
  | [] => 0
  | NvsWrite a _ :: r => (if decide (a = address) then 1 else 0) + writes_to address r
  | _ :: r => writes_to address r
  end.

(** The writes of a state to its previous slot so far. *)
Definition previous_writes (s : state) : nat :=
  writes_to (odometers_address_prv (st s)) (trace (env s)).

(** The PREV form of the command. *)
Definition is_prev_query (o : op) : bool :=
  match o with
  | op_command _ (Some args) => strcmp0 (strcaps args) "PREV"
  | _ => false
  end.

(** The current slot holds the current record. *)
Definition in_step (s : state) : Prop :=
  nvs_mem (env s) !! odometers_address (st s) = Some (odometers (st s)).

(** The spindle is switched off. *)
Definition is_spindle_off (o : op) : bool :=
  match o with
  | op_spindle_set_state on _ => negb on
  | _ => false
  end.

(** The two handlers that may run in interrupt context. *)
Definition is_isr (o : op) : bool :=
  match o with
  | op_pulse _ | op_spindle_set_state _ _ => true
  | _ => false
  end.

(** The tick of the last notification of a motion state in a run, [t] when
    there is none. *)
Fixpoint last_motion_tick (t : Z) (l : list op) : Z :=
  match l with
  | [] => t
  | op_state_changed sys_state now :: r =>
    last_motion_tick (if in_motion sys_state then now else t) r
  | _ :: r => last_motion_tick t r
  end.

(** The step counters as the array holds them, with the dirty flag set
    whenever one of them is not 0. *)
Definition counters_ok (s : state) : Prop :=
  length (steps (st s)) = N_AXIS
  /\ Forall (fun n => 0 <= n < 2 ^ 32) (steps (st s))
  /\ (odometer_changed (st s) = false -> Forall (fun n => n = 0) (steps (st s))).

(** The entry points of the host once the plugin has installed itself. *)
Definition plugin_entries : entry_points :=
  {| grbl_on_state_change := fn_onStateChanged;
     grbl_on_report_options := fn_onReportOptions;
     grbl_on_spindle_selected := fn_onSpindleSelected;
     hal_settings_changed := fn_onSettingsChanged;
     hal_stepper_pulse_start := fn_stepperPulseStart |}.

(** Minutes as two decimal digits. *)
Definition two_digits (m : Z) : string := pretty (m / 10) +:+ pretty (m mod 10).

End Odometer.

(** ** A sample build and host *)

Module Sample.

(** A stand-in for [ftoa] of the host: the digits of a finite value,
    truncated after [decimals] places. *)
Definition digits (x : float) (decimals : nat) : string :=
  let p := 10 ^ Z.of_nat decimals in
  match x with
  | S754_finite sg m e =>
    let v := if 0 <=? e then Z.pos m * p * 2 ^ e else Z.pos m * p / 2 ^ (- e) in
    (if sg then "-" else "") +:+ pretty (v / p) +:+ "." +:+ pretty (v mod p)
  | S754_zero sg => (if sg then "-0." else "0.") +:+ pretty (0 mod p)
  | S754_infinity sg => if sg then "-inf" else "inf"
  | S754_nan => "nan"
  end.

Definition letter (idx : nat) : string :=
  nth idx ["X"; "Y"; "Z"; "A"; "B"; "C"] "?"%string.

(** Three axes, a 2K EEPROM with one checksum byte per block, the state bits
    of the host. *)
Definition config : Config :=
  {| N_AXIS := 3; N_AXIS_range := conj (le_n 3) (le_S 3 5 (le_S 3 4 (le_S 3 3 (le_n 3))));
     sizeof_odometer_data_t := 32; NVS_SIZE := 2048; GRBL_NVS_SIZE := 1024;
     NVS_CRC_BYTES := 1; slot_size_range := conj eq_refl eq_refl;
     STATE_HOMING := 4; STATE_CYCLE := 8; STATE_JOG := 32; STATE_SAFETY_DOOR := 64;
     axis_letter := letter; ftoa := digits |}.

Definition host_entries : entry_points :=
  {| grbl_on_state_change := fn_host 1; grbl_on_report_options := fn_host 2;
     grbl_on_spindle_selected := fn_null; hal_settings_changed := fn_host 3;
     hal_stepper_pulse_start := fn_host 4 |}.

(** 250 steps per mm on X, 100 on Y, 3 on Z. *)
Definition scales : list float := [f32_of_Z 250; f32_of_Z 100; f32_of_Z 3].

(** Two records left in storage by an earlier session. *)
Definition earlier : odometer_data_t :=
  {| motors := 7200000; spindle := 60000;
     distance := [f32_of_Z 10; f32_of_Z 20; f32_zero] |}.
Definition latest : odometer_data_t :=
  {| motors := 3600000; spindle := 120000;
     distance := [f32_of_Z 1; f32_zero; f32_of_Z 5] |}.

Definition host_with (type : nvs_type) (mem : gmap Z odometer_data_t) : host :=
  {| entries := host_entries; driver_cap_odometers := false;
     driver_area_size := 0; physical_nvs := type; nvs_mem := mem;
     steps_per_mm := scales;
     selected_spindle := {| spindle_id := 0; set_state := fn_host 5 |};
     trace := [] |}.

(** An EEPROM that never held a record, and one where both slots do. *)
Definition blank : host := host_with NVS_EEPROM ∅.
Definition used : host :=
  host_with NVS_EEPROM (<[2015 := latest]> (<[1982 := earlier]> ∅)).

(** An EEPROM whose current slot holds the largest motor time. *)
Definition full : odometer_data_t :=
  {| motors := 2 ^ 64 - 1; spindle := 0; distance := [f32_zero; f32_zero; f32_zero] |}.
Definition worn : host := host_with NVS_EEPROM (<[2015 := full]> ∅).

(** A board that keeps its settings in flash, and an EEPROM of which the
    driver has taken all but 24 bytes. *)
Definition flash : host := host_with NVS_Flash ∅.
Definition crowded : host :=
  {| entries := host_entries; driver_cap_odometers := false;
     driver_area_size := 1000; physical_nvs := NVS_EEPROM; nvs_mem := ∅;
     steps_per_mm := scales;
     selected_spindle := {| spindle_id := 0; set_state := fn_host 5 |};
     trace := [] |}.

(** An EEPROM whose previous slot holds a record while the current slot is
    unreadable, and one of which the driver has taken more than is free. *)
Definition orphaned : host := host_with NVS_EEPROM (<[1982 := earlier]> ∅).
Definition overfull : host :=
  {| entries := host_entries; driver_cap_odometers := false;
     driver_area_size := 1100; physical_nvs := NVS_EEPROM; nvs_mem := ∅;
     steps_per_mm := scales;
     selected_spindle := {| spindle_id := 0; set_state := fn_host 5 |};
     trace := [] |}.

(** ** States of the sample host *)

#[local] Existing Instance config.

(** odometer_init on the orphaned EEPROM at the point where the read of the
    current slot has failed: the storage type is copied, the addresses are
    assigned, the current record is still the zeroed static. *)
Definition loading : state :=
  on_st (set_odometers zero_record)
    (on_st (set_addresses 2015 1982) (on_st (set_nvs NVS_EEPROM) (boot orphaned))).

(** The plugin initialised on the EEPROM with two stored records, and on the
    blank one. *)
Definition resumed : state := odometer_init (boot used).
Definition fresh : state := odometer_init (boot blank).

(** The host selects spindle 0, which installs the set-state wrapper. *)
Definition spindle_0 : spindle_ptrs_t := {| spindle_id := 0; set_state := fn_host 5 |}.
Definition ready : state := step (op_spindle_selected spindle_0) fresh.

(** Three pulses on X, one of them together with Z, while the machine moves
    and the spindle is switched on: at 250 steps per mm the distance of X
    grows from 1 by 3/250. *)
Definition short_move : list op :=
  [op_spindle_selected spindle_0; op_state_changed 8 1000; op_pulse 1; op_pulse 5;
   op_spindle_set_state true 1500; op_pulse 1].

(** One pulse on X after the start, and the same followed by the
    notification that the machine is idle. *)
Definition stepped : state := step (op_pulse 1) resumed.
Definition one_step_flushed : list op := [op_pulse 1; op_state_changed 0 5000].

(** A cycle announced at tick 1000 and a jog announced at tick 3000, with
    pulses after each. *)
Definition two_starts : list op :=
  [op_state_changed 8 1000; op_pulse 1; op_state_changed 32 3000; op_pulse 3].

End Sample.

(** * Properties *)

Section Properties.
Context {cfg : Config}.

(** ** Arithmetic helpers *)

Lemma u32_range (z : Z) : 0 <= u32 z < 2 ^ 32.
Proof. unfold u32. apply Z.mod_pos_bound. lia. Qed.

Lemma u64_range (z : Z) : 0 <= u64 z < 2 ^ 64.
Proof. unfold u64. apply Z.mod_pos_bound. lia. Qed.

Lemma u32_small (z : Z) : 0 <= z < 2 ^ 32 -> u32 z = z.
Proof. intros H. unfold u32. apply Z.mod_small. exact H. Qed.

Lemma u64_small (z : Z) : 0 <= z < 2 ^ 64 -> u64 z = z.
Proof. intros H. unfold u64. apply Z.mod_small. exact H. Qed.

(** Going down by a slot never lands on the same address. *)
Lemma u32_sub_neq (a k : Z) :
  0 <= a < 2 ^ 32 -> 0 < k < 2 ^ 32 -> u32 (a - k) <> a.
Proof.
  intros Ha Hk Heq. unfold u32 in Heq.
  pose proof (Z.div_mod (a - k) (2 ^ 32) ltac:(lia)) as Hdm.
  rewrite Heq in Hdm. lia.
Qed.

(** ** The report only writes messages *)

Lemma emit_all_nil (s : state) : emit_all [] s = s.
Proof.
  destruct s as [m h]. destruct h. unfold emit_all, on_env, set_trace. simpl.
  rewrite app_nil_r. reflexivity.
Qed.

Lemma emit_all_cons (e : effect) (l : list effect) (s : state) :
  emit_all l (emit e s) = emit_all (e :: l) s.
Proof.
  unfold emit_all, emit, on_env, set_trace. simpl.
  rewrite <- app_assoc. reflexivity.
Qed.

Lemma foldl_emit {A : Type} (f : A -> effect) (l : list A) (s : state) :
  foldl (fun s x => emit (f x) s) s l = emit_all (map f l) s.
Proof.
  revert s. induction l as [|x l IH]; intros s; simpl.
  - symmetry. apply emit_all_nil.
  - rewrite IH. apply emit_all_cons.
Qed.

Lemma odometers_report_lines (o : odometer_data_t) (s : state) :
  odometers_report o s = emit_all (report_lines o) s.
Proof.
  unfold odometers_report, report_lines.
  rewrite foldl_emit, !emit_all_cons. reflexivity.
Qed.

Lemma emit_all_st (l : list effect) (s : state) : st (emit_all l s) = st s.
Proof. reflexivity. Qed.

Lemma emit_all_nvs_mem (l : list effect) (s : state) :
  nvs_mem (env (emit_all l s)) = nvs_mem (env s).
Proof. reflexivity. Qed.

Lemma emit_all_trace (l : list effect) (s : state) :
  trace (env (emit_all l s)) = trace (env s) ++ l.
Proof. reflexivity. Qed.

(** ** A step pulse only counts *)

Lemma count_step_pulsed (step_out : Z) (idx : nat) (stp : list Z) (s : state) :
  exists stp', count_step step_out idx (pulsed stp s) = pulsed stp' s.
Proof.
  unfold count_step. destruct (Z.testbit step_out (Z.of_nat idx)).
  - exists (incr idx stp). reflexivity.
  - exists stp. reflexivity.
Qed.

Lemma count_optional_step_pulsed
    (present : bool) (step_out : Z) (idx : nat) (stp : list Z) (s : state) :
  exists stp',
    (if present then count_step step_out idx (pulsed stp s) else pulsed stp s)
    = pulsed stp' s.
Proof.
  destruct present; [apply count_step_pulsed | exists stp; reflexivity].
Qed.

Lemma pulse_shape (step_out : Z) (s : state) :
  exists stp,
    stepperPulseStart step_out s
    = emit (Call (stepper_pulse_start (saved (st s))) (arg_stepper step_out))
           (pulsed stp s).
Proof.
  unfold stepperPulseStart.
  change (on_st (set_odometer_changed true) s) with (pulsed (steps (st s)) s).
  destruct (count_step_pulsed step_out X_AXIS (steps (st s)) s) as [l1 ->].
  destruct (count_step_pulsed step_out Y_AXIS l1 s) as [l2 ->].
  destruct (count_step_pulsed step_out Z_AXIS l2 s) as [l3 ->].
  destruct (count_optional_step_pulsed (A_AXIS <? N_AXIS)%nat step_out A_AXIS l3 s)
    as [l4 ->].
  destruct (count_optional_step_pulsed (B_AXIS <? N_AXIS)%nat step_out B_AXIS l4 s)
    as [l5 ->].
  destruct (count_optional_step_pulsed (C_AXIS <? N_AXIS)%nat step_out C_AXIS l5 s)
    as [l6 ->].
  exists l6. reflexivity.
Qed.

(** ** The slot addresses *)

Ltac finish := repeat split; try reflexivity; try lia; auto.

Ltac open_ops :=
  unfold step, stepperPulseStart, onStateChanged, odometers_write,
    onSpindleSetState, onSpindleSelected, onSettingsChanged, onReportOptions,
    odometer_data_reset, memcpy_to_nvs, memcpy_from_nvs, count_step,
    call_if_set, emit, on_st, on_env in *.

Lemma odometer_command_addresses (sys_state : Z) (args : option string) (s : state) :
  odometers_address (st (snd (odometer_command sys_state args s)))
    = odometers_address (st s)
  /\ odometers_address_prv (st (snd (odometer_command sys_state args s)))
    = odometers_address_prv (st s).
Proof.
  unfold odometer_command. open_ops.
  repeat case_match; simplify_eq; simpl;
    rewrite ?odometers_report_lines; simpl; auto.
Qed.

Lemma step_addresses (o : op) (s : state) :
  odometers_address (st (step o s)) = odometers_address (st s)
  /\ odometers_address_prv (st (step o s)) = odometers_address_prv (st s).
Proof.
  destruct o as [step_out| | | | | | |]; try apply odometer_command_addresses.
  - cbn [step]. destruct (pulse_shape step_out s) as [stp ->]. simpl. auto.
  - open_ops. repeat case_match; simpl; auto.
  - open_ops. repeat case_match; simpl; auto.
  - open_ops. repeat case_match; simpl; auto.
  - open_ops. repeat case_match; simpl; auto.
  - open_ops. repeat case_match; simpl; auto.
  - open_ops. repeat case_match; simpl; auto.
Qed.

Lemma init_addresses (h : host) :
  init_ok h = true ->
  odometers_address (st (odometer_init (boot h))) = u32 (NVS_SIZE - slot_size)
  /\ odometers_address_prv (st (odometer_init (boot h)))
     = u32 (u32 (NVS_SIZE - slot_size) - slot_size).
Proof.
  unfold init_ok, odometer_init, nvs_free. simpl. intros Hok.
  apply andb_prop in Hok as [Htype Hroom].
  rewrite Htype. simpl. apply negb_true_iff in Hroom.
  unfold nvs_free in *. simpl in *. rewrite Hroom.
  unfold memcpy_from_nvs. simpl.
  destruct (nvs_mem h !! u32 (NVS_SIZE - slot_size)); simpl; auto.
Qed.

(** After initialisation the two slots never share an address. *)
Lemma reachable_slots_distinct (s : state) :
  reachable s -> odometers_address (st s) <> odometers_address_prv (st s).
Proof.
  induction 1 as [h Hok | o s Hs IH].
  - destruct (init_addresses h Hok) as [-> ->].
    intros Heq. symmetry in Heq. revert Heq.
    apply u32_sub_neq; [apply u32_range | pose proof slot_size_range; unfold slot_size; lia].
  - destruct (step_addresses o s) as [-> ->]. exact IH.
Qed.



(** ** Reset *)

(** What a reset with backup leaves behind, whatever the addresses are. *)
Lemma reset_backup_effect (s : state) :
  st (odometer_data_reset true s)
    = set_odometers zero_record (set_odometers_prv (odometers (st s)) (st s))
  /\ nvs_mem (env (odometer_data_reset true s))
    = <[odometers_address (st s) := zero_record]>
        (<[odometers_address_prv (st s) := odometers (st s)]> (nvs_mem (env s)))
  /\ trace (env (odometer_data_reset true s))
    = trace (env s) ++ [NvsWrite (odometers_address_prv (st s)) (odometers (st s));
                        NvsWrite (odometers_address (st s)) zero_record].
Proof.
  unfold odometer_data_reset. open_ops. simpl.
  rewrite <- app_assoc. auto.
Qed.

Lemma reset_plain_effect (s : state) :
  st (odometer_data_reset false s) = set_odometers zero_record (st s)
  /\ nvs_mem (env (odometer_data_reset false s))
    = <[odometers_address (st s) := zero_record]> (nvs_mem (env s))
  /\ trace (env (odometer_data_reset false s))
    = trace (env s) ++ [NvsWrite (odometers_address (st s)) zero_record].
Proof. unfold odometer_data_reset. open_ops. simpl. auto. Qed.

(** C3: when the current record is R, a reset with backup leaves R in the
    in-memory previous record and in the previous slot, the all-zero record
    in the current record and in the current slot, and has written the
    previous slot and then the current slot. *)
Theorem reset_with_backup (s : state) (R : odometer_data_t) :
  reachable s ->
  odometers (st s) = R ->
  let s' := odometer_data_reset true s in
  odometers_prv (st s') = R
  /\ nvs_mem (env s') !! odometers_address_prv (st s') = Some R
  /\ odometers (st s') = zero_record
  /\ nvs_mem (env s') !! odometers_address (st s') = Some zero_record
  /\ trace (env s')
     = trace (env s) ++ [NvsWrite (odometers_address_prv (st s)) R;
                         NvsWrite (odometers_address (st s)) zero_record].
Proof.
  intros Hreach HR s'. subst s'.
  pose proof (reachable_slots_distinct s Hreach) as Hne.
  destruct (reset_backup_effect s) as (Hst & Hmem & Htr).
  rewrite Hst, Hmem, Htr, HR. simpl.
  repeat split.
  - rewrite lookup_insert_ne by exact Hne. apply lookup_insert_eq.
  - apply lookup_insert_eq.
Qed.

(** C4: in every state whose two slot addresses differ, as they do from the
    moment odometer_init has assigned them and so at its call of the reset
    without backup, that reset leaves the in-memory previous record and the
    previous slot as they were, and leaves the all-zero record in the current
    record and in the current slot; its only write is to the current slot. *)
Theorem reset_without_backup (s : state) :
  odometers_address (st s) <> odometers_address_prv (st s) ->
  let s' := odometer_data_reset false s in
  odometers_prv (st s') = odometers_prv (st s)
  /\ nvs_mem (env s') !! odometers_address_prv (st s')
     = nvs_mem (env s) !! odometers_address_prv (st s)
  /\ odometers (st s') = zero_record
  /\ nvs_mem (env s') !! odometers_address (st s') = Some zero_record
  /\ trace (env s')
     = trace (env s) ++ [NvsWrite (odometers_address (st s)) zero_record].
Proof.
  intros Hne s'. subst s'.
  destruct (reset_plain_effect s) as (Hst & Hmem & Htr).
  rewrite Hst, Hmem, Htr. simpl.
  repeat split.
  - apply lookup_insert_ne. exact Hne.
  - apply lookup_insert_eq.
Qed.

Lemma nvs_needed_eq : nvs_needed = 2 * slot_size.
Proof.
  unfold nvs_needed. pose proof slot_size_range. unfold slot_size.
  rewrite u32_small; lia.
Qed.

(** ** State changes that carry nothing *)

Lemma call_if_set_forwarded (f : fnptr) (a : call_arg) (s : state) :
  call_if_set f a s = emit_all (forwarded f a) s.
Proof.
  destruct f; simpl; try reflexivity. symmetry. apply emit_all_nil.
Qed.

(** C10: a notification of a state that is not a motion state, while no step
    is pending, changes none of the statics (current record, step counters,
    dirty flag), nothing in storage and nothing of the host: it only forwards
    the notification to the subscriber that was registered before. *)
Theorem state_change_idle_frame (sys_state now : Z) (s : state) :
  in_motion sys_state = false ->
  odometer_changed (st s) = false ->
  let s' := onStateChanged sys_state now s in
  st s' = st s
  /\ nvs_mem (env s') = nvs_mem (env s)
  /\ env s' = set_trace
       (trace (env s) ++ forwarded (on_state_change (saved (st s))) (arg_state sys_state))
       (env s).
Proof.
  intros Hidle Hclean s'. subst s'. unfold onStateChanged.
  rewrite Hidle, Hclean, call_if_set_forwarded. auto.
Qed.

(** ** The command *)

Lemma strcmp0_eq (a b : string) : strcmp0 a b = true -> c_string a = c_string b.
Proof. unfold strcmp0. apply String.eqb_eq. Qed.

Lemma prev_is_not_rst (a : string) :
  strcmp0 a "PREV" = true -> strcmp0 a "RST" = false.
Proof.
  intros H. apply strcmp0_eq in H. unfold strcmp0. rewrite H. reflexivity.
Qed.

(** C7: a PREV query whose load of the previous slot fails reports the
    warning and nothing else, and returns [Status_OK]. *)
Theorem prev_load_failure (sys_state : Z) (args : string) (s : state) :
  strcmp0 (strcaps args) "PREV" = true ->
  snd (memcpy_from_nvs (odometers_prv (st s)) (odometers_address_prv (st s)) s)
    = NVS_TransferResult_Failed ->
  let r := odometer_command sys_state (Some args) s in
  fst r = Status_OK
  /\ trace (env (snd r))
     = trace (env s)
       ++ [ReportMessage "Previous odometer values not available" Message_Warning].
Proof.
  intros Hprev Hfail r. subst r. unfold odometer_command.
  rewrite Hprev, (prev_is_not_rst _ Hprev).
  destruct (memcpy_from_nvs (odometers_prv (st s)) (odometers_address_prv (st s)) s)
    as [data result].
  simpl in Hfail. subst result. simpl. auto.
Qed.

(** C8: an argument that is neither PREV nor RST once capitalised makes the
    command return [Status_Unhandled], which is neither [Status_OK] nor an
    error code, and leaves the whole state, records and storage included, as
    it was. *)
Theorem unknown_argument (sys_state : Z) (args : string) (s : state) :
  strcmp0 (strcaps args) "PREV" = false ->
  strcmp0 (strcaps args) "RST" = false ->
  odometer_command sys_state (Some args) s = (Status_Unhandled, s)
  /\ Status_Unhandled <> Status_OK
  /\ forall code, Status_Unhandled <> Status_Error code.
Proof.
  intros Hprev Hrst. unfold odometer_command. rewrite Hprev, Hrst.
  repeat split; discriminate.
Qed.

(** ** Initialisation *)

(** Where the physical storage is neither EEPROM nor FRAM, or the free
    room as the comparison reads it, an unsigned 32-bit number, is below two
    slots, initialisation leaves every entry point of the host, the
    capability flag, the storage and the saved pointers as they were,
    registers no command, and schedules exactly one startup warning. *)
Theorem init_disabled (s : state) :
((physical_nvs (env s) <> NVS_EEPROM /\ physical_nvs (env s) <> NVS_FRAM)
   \/ nvs_free s < 2 * slot_size) ->
  let s' := odometer_init s in
  entries (env s') = entries (env s)
  /\ driver_cap_odometers (env s') = driver_cap_odometers (env s)
  /\ nvs_mem (env s') = nvs_mem (env s)
  /\ st s' = set_nvs (physical_nvs (env s)) (st s)
  /\ exists warning,
       env s' = set_trace (trace (env s) ++ [TaskRunOnStartup warning]) (env s).
Proof.
  intros Hbad s'. subst s'. unfold odometer_init. simpl.
  destruct (bool_decide (physical_nvs (env s) = NVS_EEPROM)
            || bool_decide (physical_nvs (env s) = NVS_FRAM)) eqn:Htype; simpl.
  - destruct Hbad as [[Hne1 Hne2] | Hroom].
    + apply orb_prop in Htype as [H | H]; apply bool_decide_eq_true in H; contradiction.
    + rewrite <- nvs_needed_eq in Hroom.
      assert ((nvs_free (on_st (set_nvs (physical_nvs (env s))) s) <? nvs_needed) = true)
        as -> by (apply Z.ltb_lt; exact Hroom).
      simpl. eauto 10.
  - eauto 10.
Qed.

(** ** The two time counters *)

Lemma u64_add_mono (x e : Z) : 0 <= e -> x + e < 2 ^ 64 -> x <= u64 (x + e).
Proof.
  intros He Hfit. destruct (Z_lt_le_dec (x + e) 0) as [Hneg | Hpos].
  - pose proof (u64_range (x + e)). lia.
  - rewrite u64_small; lia.
Qed.

Lemma command_keeps_odometers (sys_state : Z) (args : option string) (s : state) :
  is_reset (op_command sys_state args) = false ->
  odometers (st (snd (odometer_command sys_state args s))) = odometers (st s).
Proof.
  unfold is_reset, odometer_command. intros Hrst. open_ops.
  destruct args as [a|]; [rewrite Hrst|];
    repeat case_match; simplify_eq; simpl;
    rewrite ?odometers_report_lines; simpl; auto.
Qed.

(** Each operation leaves a time counter alone or adds its elapsed ticks to
    it with a 64-bit addition. *)
Lemma step_time_counters (o : op) (s : state) :
  is_reset o = false ->
  let a := odometers (st s) in
  let b := odometers (st (step o s)) in
  (motors b = motors a \/ motors b = u64 (motors a + elapsed_of o s))
  /\ (spindle b = spindle a \/ spindle b = u64 (spindle a + elapsed_of o s)).
Proof.
  intros Hrst. destruct o as [step_out| | | | | | |].
  - cbn [step]. destruct (pulse_shape step_out s) as [stp ->]. simpl. auto.
  - open_ops. repeat case_match; simpl; auto.
  - open_ops. repeat case_match; simpl; auto.
  - open_ops. repeat case_match; simpl; auto.
  - open_ops. repeat case_match; simpl; auto.
  - open_ops. repeat case_match; simpl; auto.
  - simpl step. rewrite (command_keeps_odometers _ _ _ Hrst). auto.
  - open_ops. repeat case_match; simpl; auto.
Qed.

(** C6, as the code has it: every operation other than a reset command, a
    state-change notification and a spindle set-state call among them, leaves
    the motor time and the spindle time at least as large as before, as long
    as adding the elapsed ticks stays below 2^64. *)
Theorem time_counters_monotone (o : op) (s : state) :
  is_reset o = false ->
  motors (odometers (st s)) + elapsed_of o s < 2 ^ 64 ->
  spindle (odometers (st s)) + elapsed_of o s < 2 ^ 64 ->
  motors (odometers (st s)) <= motors (odometers (st (step o s)))
  /\ spindle (odometers (st s)) <= spindle (odometers (st (step o s))).
Proof.
  intros Hrst Hm Hs.
  assert (0 <= elapsed_of o s) as He
    by (destruct o; simpl; try lia; apply u32_range).
  destruct (step_time_counters o s Hrst) as [[-> | ->] [-> | ->]];
    repeat split; try lia; apply u64_add_mono; assumption.
Qed.

(** ** The spindle interval *)

(** The start tick of the spindle doubles as the mark that it is on: a start
    at tick 0 is not seen when the spindle goes off. *)
Lemma spindle_on_at_tick_zero (off_tick : Z) (s : state) :
  let s' := onSpindleSetState false off_tick (onSpindleSetState true 0 s) in
  st s' = set_spindle_ms 0 (st s)
  /\ trace (env s')
     = trace (env s) ++ [Call (spindle_set_state_ (saved (st s))) (arg_spindle_state true);
                         Call (spindle_set_state_ (saved (st s))) (arg_spindle_state false)].
Proof.
  simpl. unfold onSpindleSetState. open_ops. simpl.
  rewrite <- app_assoc. auto.
Qed.

(** A start at any other tick is accounted for when the spindle goes off. *)
Lemma spindle_interval (on_tick off_tick : Z) (s : state) :
  on_tick <> 0 ->
  let s' := onSpindleSetState false off_tick (onSpindleSetState true on_tick s) in
  spindle (odometers (st s'))
    = u64 (spindle (odometers (st s)) + u32 (off_tick - on_tick))
  /\ trace (env s')
     = trace (env s) ++ [Call (spindle_set_state_ (saved (st s))) (arg_spindle_state true);
                         Call (spindle_set_state_ (saved (st s))) (arg_spindle_state false);
                         TaskAddImmediate odometers_write_task].
Proof.
  intros Hon. simpl. unfold onSpindleSetState. open_ops. simpl.
  apply Z.eqb_neq in Hon. rewrite Hon. simpl.
  rewrite <- !app_assoc. auto.
Qed.

Example hours_line_3660000 : hours_line "SPINDLEHRS" 3660000 = "SPINDLEHRS 1:01".
Proof. vm_compute. reflexivity. Qed.

(** ** Step pulses and the distance *)

Lemma steps_at_insert (i X : nat) (v : Z) (l : list Z) :
  (i < length l)%nat ->
  steps_at X (<[i := v]> l) = if decide (i = X) then v else steps_at X l.
Proof.
  intros Hi. unfold steps_at. case_decide as Heq.
  - subst. rewrite list_lookup_insert_eq by exact Hi. reflexivity.
  - rewrite list_lookup_insert_ne by exact Heq. reflexivity.
Qed.

Lemma float_at_insert (i X : nat) (v : float) (l : list float) :
  (i < length l)%nat ->
  float_at X (<[i := v]> l) = if decide (i = X) then v else float_at X l.
Proof.
  intros Hi. unfold float_at. case_decide as Heq.
  - subst. rewrite list_lookup_insert_eq by exact Hi. reflexivity.
  - rewrite list_lookup_insert_ne by exact Heq. reflexivity.
Qed.

(** One conditional increment, seen from axis [X]. *)
Lemma count_step_at (step_out : Z) (i X : nat) (s : state) :
  (i < length (steps (st s)))%nat ->
  let s' := count_step step_out i s in
  length (steps (st s')) = length (steps (st s))
  /\ steps_at X (steps (st s'))
     = (if decide (i = X) then
          if Z.testbit step_out (Z.of_nat X) then u32 (steps_at X (steps (st s)) + 1)
          else steps_at X (steps (st s))
        else steps_at X (steps (st s)))
  /\ odometers (st s') = odometers (st s)
  /\ odometer_changed (st s') = odometer_changed (st s)
  /\ saved (st s') = saved (st s)
  /\ env s' = env s.
Proof.
  intros Hi. simpl. unfold count_step.
  destruct (Z.testbit step_out (Z.of_nat i)) eqn:Hbit; simpl.
  - unfold incr. rewrite length_insert, steps_at_insert by exact Hi.
    case_decide; subst; rewrite ?Hbit; repeat split; reflexivity.
  - case_decide; subst; rewrite ?Hbit; repeat split; reflexivity.
Qed.

(** The same for an axis that the build may not have. *)
Lemma count_optional_step_at (step_out : Z) (i X : nat) (s : state) :
  length (steps (st s)) = N_AXIS ->
  (X < N_AXIS)%nat ->
  let s' := if (i <? N_AXIS)%nat then count_step step_out i s else s in
  length (steps (st s')) = length (steps (st s))
  /\ steps_at X (steps (st s'))
     = (if decide (i = X) then
          if Z.testbit step_out (Z.of_nat X) then u32 (steps_at X (steps (st s)) + 1)
          else steps_at X (steps (st s))
        else steps_at X (steps (st s)))
  /\ odometers (st s') = odometers (st s)
  /\ odometer_changed (st s') = odometer_changed (st s)
  /\ saved (st s') = saved (st s)
  /\ env s' = env s.
Proof.
  intros Hlen HX. simpl.
  destruct (i <? N_AXIS)%nat eqn:Hi.
  - apply Nat.ltb_lt in Hi. apply count_step_at. lia.
  - apply Nat.ltb_ge in Hi. case_decide; [lia | repeat split; reflexivity].
Qed.

(** One step pulse, seen from axis [X]. *)
Lemma pulse_at (step_out : Z) (X : nat) (s : state) :
  length (steps (st s)) = N_AXIS ->
  (X < N_AXIS)%nat ->
  let s' := stepperPulseStart step_out s in
  length (steps (st s')) = N_AXIS
  /\ steps_at X (steps (st s'))
     = (if Z.testbit step_out (Z.of_nat X) then u32 (steps_at X (steps (st s)) + 1)
        else steps_at X (steps (st s)))
  /\ odometers (st s') = odometers (st s)
  /\ odometer_changed (st s') = true
  /\ steps_per_mm (env s') = steps_per_mm (env s).
Proof.
  intros Hlen HX. pose proof N_AXIS_range as Hrange.
  unfold stepperPulseStart.
  set (s0 := on_st (set_odometer_changed true) s).
  assert (length (steps (st s0)) = N_AXIS) as L0 by exact Hlen.
  destruct (count_step_at step_out X_AXIS X s0 ltac:(unfold X_AXIS; lia))
    as (L1 & A1 & O1 & C1 & _ & E1).
  set (s1 := count_step step_out X_AXIS s0) in *. rewrite L0 in L1.
  destruct (count_step_at step_out Y_AXIS X s1 ltac:(unfold Y_AXIS; lia))
    as (L2 & A2 & O2 & C2 & _ & E2).
  set (s2 := count_step step_out Y_AXIS s1) in *. rewrite L1 in L2.
  destruct (count_step_at step_out Z_AXIS X s2 ltac:(unfold Z_AXIS; lia))
    as (L3 & A3 & O3 & C3 & _ & E3).
  set (s3 := count_step step_out Z_AXIS s2) in *. rewrite L2 in L3.
  destruct (count_optional_step_at step_out A_AXIS X s3 L3 HX)
    as (L4 & A4 & O4 & C4 & _ & E4).
  set (s4 := if (A_AXIS <? N_AXIS)%nat then count_step step_out A_AXIS s3 else s3) in *.
  rewrite L3 in L4.
  destruct (count_optional_step_at step_out B_AXIS X s4 L4 HX)
    as (L5 & A5 & O5 & C5 & _ & E5).
  set (s5 := if (B_AXIS <? N_AXIS)%nat then count_step step_out B_AXIS s4 else s4) in *.
  rewrite L4 in L5.
  destruct (count_optional_step_at step_out C_AXIS X s5 L5 HX)
    as (L6 & A6 & O6 & C6 & _ & E6).
  set (s6 := if (C_AXIS <? N_AXIS)%nat then count_step step_out C_AXIS s5 else s5) in *.
  rewrite L5 in L6.
  simpl. rewrite L6, A6, A5, A4, A3, A2, A1, O6, O5, O4, O3, O2, O1.
  rewrite C6, C5, C4, C3, C2, C1, E6, E5, E4, E3, E2, E1.
  unfold X_AXIS, Y_AXIS, Z_AXIS, A_AXIS, B_AXIS, C_AXIS.
  repeat split.
  destruct X as [|[|[|[|[|[|X]]]]]]; try lia; simpl;
    destruct (Z.testbit step_out _); reflexivity.
Qed.

Lemma command_keeps_counters (sys_state : Z) (args : option string) (s : state) :
  let s' := snd (odometer_command sys_state args s) in
  steps (st s') = steps (st s)
  /\ odometer_changed (st s') = odometer_changed (st s)
  /\ steps_per_mm (env s') = steps_per_mm (env s).
Proof.
  simpl. unfold odometer_command. open_ops.
  repeat case_match; simplify_eq; simpl;
    rewrite ?odometers_report_lines; simpl; auto.
Qed.

(** One operation that keeps pending steps pending, seen from axis [X]. *)
Lemma pending_step (o : op) (X : nat) (s : state) :
  keeps_pending o = true ->
  length (steps (st s)) = N_AXIS ->
  (X < N_AXIS)%nat ->
  let s' := step o s in
  length (steps (st s')) = N_AXIS
  /\ steps_at X (steps (st s'))
     = (if pulse_on X o then u32 (steps_at X (steps (st s)) + 1)
        else steps_at X (steps (st s)))
  /\ distance (odometers (st s')) = distance (odometers (st s))
  /\ steps_per_mm (env s') = steps_per_mm (env s)
  /\ odometer_changed (st s') = odometer_changed (st s) || is_pulse o.
Proof.
  intros Hkeep Hlen HX.
  destruct o; simpl in Hkeep; cbv zeta; unfold step, pulse_on, is_pulse.
  - destruct (pulse_at step_out X s Hlen HX) as (L & A & O & C & E).
    rewrite L, A, O, C, E, orb_true_r. auto.
  - unfold onStateChanged. rewrite Hkeep, call_if_set_forwarded. simpl.
    rewrite orb_false_r. auto.
  - open_ops. simpl. rewrite orb_false_r. auto.
  - open_ops. repeat case_match; simpl; rewrite orb_false_r; auto.
  - open_ops. repeat case_match; simpl; rewrite orb_false_r; auto.
  - open_ops. repeat case_match; simpl; rewrite orb_false_r; auto.
  - apply negb_true_iff in Hkeep.
    rewrite (command_keeps_odometers _ _ _ Hkeep).
    destruct (command_keeps_counters sys_state args s) as (-> & -> & ->).
    rewrite orb_false_r. auto.
  - open_ops. repeat case_match; simpl; rewrite orb_false_r; auto.
Qed.

Lemma u32_succ_add (c n : Z) : u32 (u32 (c + 1) + n) = u32 (c + (1 + n)).
Proof.
  unfold u32. rewrite Zplus_mod_idemp_l. f_equal. lia.
Qed.

(** A run that keeps pending steps pending counts the pulses of axis [X]
    into its 32-bit counter and leaves the distances alone. *)
Lemma run_pending (X : nat) (l : list op) :
  forall s : state,
  forallb keeps_pending l = true ->
  length (steps (st s)) = N_AXIS ->
  (X < N_AXIS)%nat ->
  0 <= steps_at X (steps (st s)) < 2 ^ 32 ->
  length (steps (st (run l s))) = N_AXIS
  /\ steps_at X (steps (st (run l s)))
     = u32 (steps_at X (steps (st s)) + pulses_on X l)
  /\ distance (odometers (st (run l s))) = distance (odometers (st s))
  /\ steps_per_mm (env (run l s)) = steps_per_mm (env s)
  /\ (odometer_changed (st s) = true \/ 0 < pulses_on X l ->
      odometer_changed (st (run l s)) = true).
Proof.
  induction l as [|o l IH]; intros s Hkeep Hlen HX Hc; simpl.
  - rewrite Z.add_0_r, u32_small by exact Hc.
    repeat split; auto. intros [H | H]; [exact H | lia].
  - simpl in Hkeep. apply andb_prop in Hkeep as [Ho Hl].
    destruct (pending_step o X s Ho Hlen HX) as (L & A & D & E & C).
    assert (0 <= steps_at X (steps (st (step o s))) < 2 ^ 32) as Hc'.
    { rewrite A. destruct (pulse_on X o); [apply u32_range | exact Hc]. }
    destruct (IH (step o s) Hl L HX Hc') as (L' & A' & D' & E' & C').
    rewrite L', A', D', E', A, D, E. repeat split.
    + destruct (pulse_on X o).
      * apply u32_succ_add.
      * reflexivity.
    + intros Hdirty. apply C'. rewrite C.
      destruct (pulse_on X o) eqn:Hp.
      * left. destruct o; try discriminate. apply orb_true_r.
      * destruct Hdirty as [-> | Hpos]; [left; reflexivity | right; lia].
Qed.

Lemma flush_axis_at (spm : list float) (i X : nat) (stp : list Z) (dist : list float) :
  (i < length stp)%nat ->
  (i < length dist)%nat ->
  let r := flush_axis spm i (stp, dist) in
  length (fst r) = length stp
  /\ length (snd r) = length dist
  /\ steps_at X (fst r) = (if decide (i = X) then 0 else steps_at X stp)
  /\ float_at X (snd r)
     = (if decide (i = X)
        then flushed (float_at X dist) (steps_at X stp) (float_at X spm)
        else float_at X dist).
Proof.
  intros Hs Hd. simpl. unfold flushed.
  destruct (steps_at i stp =? 0) eqn:Hz; simpl.
  - apply Z.eqb_eq in Hz. case_decide; subst; rewrite ?Hz; auto.
  - rewrite !length_insert, steps_at_insert, float_at_insert by assumption.
    case_decide; subst; rewrite ?Hz; auto.
Qed.

Lemma flush_steps_at (spm : list float) (X : nat) (n : nat) :
  forall (stp : list Z) (dist : list float),
  (n <= length stp)%nat ->
  (n <= length dist)%nat ->
  let r := flush_steps spm n (stp, dist) in
  length (fst r) = length stp
  /\ length (snd r) = length dist
  /\ steps_at X (fst r) = (if decide (X < n)%nat then 0 else steps_at X stp)
  /\ float_at X (snd r)
     = (if decide (X < n)%nat
        then flushed (float_at X dist) (steps_at X stp) (float_at X spm)
        else float_at X dist).
Proof.
  induction n as [|i IH]; intros stp dist Hs Hd.
  - simpl. auto.
  - cbv zeta. cbn [flush_steps].
    destruct (flush_axis_at spm i X stp dist ltac:(lia) ltac:(lia))
      as (L1 & L2 & A & F).
    destruct (flush_axis spm i (stp, dist)) as [stp1 dist1] eqn:Hax.
    simpl in L1, L2, A, F.
    destruct (IH stp1 dist1 ltac:(lia) ltac:(lia)) as (L1' & L2' & A' & F').
    simpl in L1', L2', A', F'.
    rewrite L1', L2', A', F', A, F, L1, L2.
    repeat split; repeat case_decide; subst; try lia; reflexivity.
Qed.

(** A notification of a state without motion, with steps pending. *)
Lemma flush_at (X : nat) (sys_state now : Z) (s : state) :
  in_motion sys_state = false ->
  odometer_changed (st s) = true ->
  (X < N_AXIS)%nat ->
  length (steps (st s)) = N_AXIS ->
  length (distance (odometers (st s))) = N_AXIS ->
  let s' := onStateChanged sys_state now s in
  float_at X (distance (odometers (st s')))
    = flushed (float_at X (distance (odometers (st s))))
              (steps_at X (steps (st s)))
              (float_at X (steps_per_mm (env s)))
  /\ steps_at X (steps (st s')) = 0
  /\ odometer_changed (st s') = false.
Proof.
  intros Hidle Hdirty HX Hs Hd. simpl.
  unfold onStateChanged. rewrite Hidle, Hdirty, call_if_set_forwarded.
  rewrite emit_all_st. unfold memcpy_to_nvs. simpl.
  destruct (flush_steps_at (steps_per_mm (env s)) X N_AXIS
              (steps (st s)) (distance (odometers (st s)))
              ltac:(lia) ltac:(lia)) as (_ & _ & A & F).
  simpl in A, F. rewrite A, F.
  case_decide; [auto | lia].
Qed.

(** The pulses of a run, flushed by the notification that follows it. *)
Lemma flush_after_run (X : nat) (l : list op) (sys_state now : Z) (s : state) :
  (X < N_AXIS)%nat ->
  length (steps (st s)) = N_AXIS ->
  length (distance (odometers (st s))) = N_AXIS ->
  steps_at X (steps (st s)) = 0 ->
  forallb keeps_pending l = true ->
  0 < pulses_on X l ->
  in_motion sys_state = false ->
  let s' := onStateChanged sys_state now (run l s) in
  float_at X (distance (odometers (st s')))
    = flushed (float_at X (distance (odometers (st s))))
              (u32 (pulses_on X l))
              (float_at X (steps_per_mm (env s)))
  /\ steps_at X (steps (st s')) = 0
  /\ odometer_changed (st s') = false.
Proof.
  intros HX Hs Hd Hzero Hkeep Hpos Hidle.
  destruct (run_pending X l s Hkeep Hs HX ltac:(lia)) as (L & A & D & E & C).
  rewrite Hzero, Z.add_0_l in A.
  rewrite <- A, <- D, <- E.
  apply flush_at; auto. rewrite D. exact Hd.
Qed.

(** C1, as the code has it: after N > 0 step pulses for axis X, counted
    from an empty counter by a run without a flush or a reset, the first
    notification of a state without motion zeroes the counter of X, clears
    the dirty flag, and sets distance[X] to the single-precision sum of its
    old value and (float)n / scale, where n is N in 32 bits; when n is 0 the
    distance stays as it was. *)
Theorem pulses_become_distance
    (X : nat) (l : list op) (sys_state now : Z) (s : state) :
  (X < N_AXIS)%nat ->
  length (steps (st s)) = N_AXIS ->
  length (distance (odometers (st s))) = N_AXIS ->
  steps_at X (steps (st s)) = 0 ->
  forallb keeps_pending l = true ->
  0 < pulses_on X l ->
  in_motion sys_state = false ->
  let N := pulses_on X l in
  let d := float_at X (distance (odometers (st s))) in
  let scale := float_at X (steps_per_mm (env s)) in
  let s' := onStateChanged sys_state now (run l s) in
  float_at X (distance (odometers (st s')))
    = (if u32 N =? 0 then d else f32_add d (f32_div (f32_of_Z (u32 N)) scale))
  /\ steps_at X (steps (st s')) = 0
  /\ odometer_changed (st s') = false.
Proof. apply flush_after_run. Qed.

(** ** The previous record *)

Lemma writes_to_app (address : Z) (t u : list effect) :
  writes_to address (t ++ u) = (writes_to address t + writes_to address u)%nat.
Proof.
  induction t as [|e t IH]; simpl; [reflexivity |].
  destruct e; rewrite IH; lia.
Qed.

Lemma writes_to_report (address : Z) (o : odometer_data_t) :
  writes_to address (report_lines o) = 0%nat.
Proof.
  unfold report_lines. simpl. induction (seq 0 N_AXIS); simpl; auto.
Qed.

Lemma writes_to_forwarded (address : Z) (f : fnptr) (a : call_arg) :
  writes_to address (forwarded f a) = 0%nat.
Proof. destruct f; reflexivity. Qed.

(** What an operation other than a reset does to the previous record, in
    storage and in memory. *)
Lemma step_previous (o : op) (s : state) :
  odometers_address (st s) <> odometers_address_prv (st s) ->
  is_reset o = false ->
  previous_slot (step o s) = previous_slot s
  /\ previous_writes (step o s) = previous_writes s
  /\ odometers_prv (st (step o s))
     = (if is_prev_query o then default (odometers_prv (st s)) (previous_slot s)
        else odometers_prv (st s)).
Proof.
  intros Hne Hrst. unfold previous_slot, previous_writes.
  destruct o as [step_out| | | | | |sys_state args|];
    simpl in Hrst; unfold step, is_prev_query.
  - destruct (pulse_shape step_out s) as [stp ->]. simpl.
    rewrite writes_to_app. simpl. finish.
  - unfold onStateChanged. rewrite call_if_set_forwarded.
    unfold memcpy_to_nvs. open_ops.
    repeat case_match; simpl;
      rewrite ?writes_to_app, ?writes_to_forwarded, ?lookup_insert_ne by exact Hne;
      simpl; repeat case_decide; try contradiction; finish.
  - open_ops. simpl. rewrite writes_to_app, lookup_insert_ne by exact Hne.
    simpl. case_decide; [contradiction | finish].
  - open_ops. repeat case_match; simpl; rewrite ?writes_to_app; simpl; finish.
  - open_ops. repeat case_match; simpl; rewrite ?writes_to_app; simpl; finish.
  - open_ops. repeat case_match; simpl; rewrite ?writes_to_app; simpl; finish.
  - unfold odometer_command. destruct args as [a|].
    + rewrite Hrst. unfold memcpy_from_nvs.
      destruct (strcmp0 (strcaps a) "PREV"); [| finish].
      destruct (nvs_mem (env s) !! odometers_address_prv (st s)) as [data|] eqn:Hslot;
        simpl; rewrite ?odometers_report_lines; simpl;
        rewrite ?Hslot, ?writes_to_app, ?writes_to_report; simpl; finish.
    + rewrite odometers_report_lines. simpl.
      rewrite writes_to_app, writes_to_report. finish.
  - open_ops. repeat case_match; simpl; rewrite ?writes_to_app; simpl; finish.
Qed.

(** C5, as the code has it: in a reachable state a reset command sets the
    in-memory previous record and the previous slot to the current record
    with exactly one write to that slot; every other operation leaves the
    previous slot alone and writes nothing to it, and leaves the in-memory
    previous record alone too, except the PREV query, which overwrites it
    with the record of the previous slot when there is one. *)
Theorem previous_record_changes (o : op) (s : state) :
  reachable s ->
  if is_reset o then
    odometers_prv (st (step o s)) = odometers (st s)
    /\ previous_slot (step o s) = Some (odometers (st s))
    /\ previous_writes (step o s) = S (previous_writes s)
  else
    previous_slot (step o s) = previous_slot s
    /\ previous_writes (step o s) = previous_writes s
    /\ odometers_prv (st (step o s))
       = (if is_prev_query o then default (odometers_prv (st s)) (previous_slot s)
          else odometers_prv (st s)).
Proof.
  intros Hreach. pose proof (reachable_slots_distinct s Hreach) as Hne.
  destruct (is_reset o) eqn:Hrst; [| apply step_previous; assumption].
  destruct o as [| | | | | |sys_state [a|]|]; try discriminate. simpl in Hrst.
  unfold step, odometer_command, previous_slot, previous_writes.
  rewrite Hrst.
  set (q := if strcmp0 (strcaps a) "PREV" then _ else _).
  assert (q = (Status_Unhandled, s)) as ->.
  { subst q. destruct (strcmp0 (strcaps a) "PREV") eqn:Hprev; [| reflexivity].
    rewrite (prev_is_not_rst _ Hprev) in Hrst. discriminate. }
  cbn [snd]. destruct (reset_backup_effect s) as (-> & -> & ->). simpl.
  rewrite lookup_insert_ne, lookup_insert_eq by exact Hne.
  rewrite writes_to_app. simpl.
  repeat case_decide; try contradiction; finish.
Qed.

(** ** Long runs of pulses *)

Lemma pulses_on_repeat (X : nat) (step_out : Z) (n : nat) :
  pulses_on X (repeat (op_pulse step_out) n)
  = if Z.testbit step_out (Z.of_nat X) then Z.of_nat n else 0.
Proof.
  induction n as [|n IH].
  - simpl. destruct (Z.testbit step_out (Z.of_nat X)); reflexivity.
  - cbn [repeat pulses_on pulse_on]. rewrite IH.
    destruct (Z.testbit step_out (Z.of_nat X)); lia.
Qed.

Lemma keeps_pending_repeat (step_out : Z) (n : nat) :
  forallb keeps_pending (repeat (op_pulse step_out) n) = true.
Proof. induction n as [|n IH]; [reflexivity | exact IH]. Qed.

(** ** Initialisation that goes through *)

Lemma init_ok_cases (h : host) :
  init_ok h = true ->
  (bool_decide (physical_nvs h = NVS_EEPROM) || bool_decide (physical_nvs h = NVS_FRAM)) = true
  /\ (nvs_free (boot h) <? nvs_needed) = false.
Proof.
  unfold init_ok. intros Hok. apply andb_prop in Hok as [Htype Hroom].
  apply negb_true_iff in Hroom. auto.
Qed.

(** X1: an initialisation that goes through puts the five handlers of the
    plugin into the entry points of the host, keeps the handlers it found
    there as the ones to forward to, sets the capability flag and registers
    the command last; no step is pending. *)
Theorem init_installs_plugin (h : host) :
  init_ok h = true ->
  let s := odometer_init (boot h) in
  entries (env s) = plugin_entries
  /\ saved (st s)
     = {| stepper_pulse_start := hal_stepper_pulse_start (entries h);
          on_state_change := grbl_on_state_change (entries h);
          on_spindle_selected := grbl_on_spindle_selected (entries h);
          spindle_set_state_ := fn_null;
          settings_changed := hal_settings_changed (entries h);
          on_report_options := grbl_on_report_options (entries h) |}
  /\ driver_cap_odometers (env s) = true
  /\ last (trace (env s)) = Some (RegisterCommands "ODOMETERS")
  /\ nvs (st s) = physical_nvs h
  /\ steps (st s) = replicate N_AXIS 0
  /\ odometer_changed (st s) = false.
Proof.
  intros Hok. destruct (init_ok_cases h Hok) as [Htype Hroom].
  unfold odometer_init, nvs_free in *. simpl in *. rewrite Htype. simpl.
  rewrite Hroom. unfold memcpy_from_nvs. simpl.
  destruct (nvs_mem h !! u32 (NVS_SIZE - slot_size)); simpl;
    rewrite ?last_snoc; repeat split; reflexivity.
Qed.

Lemma init_with_record (h : host) (R : odometer_data_t) :
  init_ok h = true ->
  nvs_mem h !! u32 (NVS_SIZE - slot_size) = Some R ->
  odometers (st (odometer_init (boot h))) = R
  /\ odometers_prv (st (odometer_init (boot h))) = zero_record
  /\ nvs_mem (env (odometer_init (boot h))) = nvs_mem h
  /\ trace (env (odometer_init (boot h))) = trace h ++ [RegisterCommands "ODOMETERS"]
  /\ in_step (odometer_init (boot h)).
Proof.
  intros Hok Hslot. destruct (init_ok_cases h Hok) as [Htype Hroom].
  unfold in_step, odometer_init, nvs_free in *. simpl in *. rewrite Htype. simpl.
  rewrite Hroom. unfold memcpy_from_nvs. simpl. rewrite Hslot. simpl.
  repeat split; auto.
Qed.

(** X2: where the current slot holds a record, initialisation takes it as
    the current record and writes nothing; the in-memory previous record is
    not loaded and stays all zero. *)
Theorem init_loads_stored_record (h : host) (R : odometer_data_t) :
  init_ok h = true ->
  nvs_mem h !! u32 (NVS_SIZE - slot_size) = Some R ->
  let s := odometer_init (boot h) in
  odometers (st s) = R
  /\ odometers_prv (st s) = zero_record
  /\ nvs_mem (env s) = nvs_mem h
  /\ trace (env s) = trace h ++ [RegisterCommands "ODOMETERS"]
  /\ in_step s.
Proof. apply init_with_record. Qed.

(** X3: where the current slot holds no valid record, initialisation
    starts from the all-zero record and writes it to the current slot, and
    to nothing else: the previous slot is as it was. *)
Theorem init_blank_storage (h : host) :
  init_ok h = true ->
  nvs_mem h !! u32 (NVS_SIZE - slot_size) = None ->
  let s := odometer_init (boot h) in
  odometers (st s) = zero_record
  /\ nvs_mem (env s) = <[u32 (NVS_SIZE - slot_size) := zero_record]> (nvs_mem h)
  /\ trace (env s)
     = trace h ++ [NvsWrite (u32 (NVS_SIZE - slot_size)) zero_record;
                   RegisterCommands "ODOMETERS"]
  /\ in_step s
  /\ previous_slot s = nvs_mem h !! odometers_address_prv (st s).
Proof.
  intros Hok Hslot. destruct (init_ok_cases h Hok) as [Htype Hroom].
  unfold in_step, previous_slot, odometer_init, nvs_free in *. simpl in *.
  rewrite Htype. simpl. rewrite Hroom. unfold memcpy_from_nvs. simpl.
  rewrite Hslot. unfold odometer_data_reset. open_ops. simpl.
  rewrite <- app_assoc. repeat split; auto.
  - apply lookup_insert_eq.
  - apply lookup_insert_ne. intros Heq. symmetry in Heq. revert Heq.
    apply u32_sub_neq; [apply u32_range |].
    pose proof slot_size_range. unfold slot_size. lia.
Qed.

(** ** Where the slots lie *)

Lemma run_addresses (l : list op) :
  forall s : state,
  odometers_address (st (run l s)) = odometers_address (st s)
  /\ odometers_address_prv (st (run l s)) = odometers_address_prv (st s).
Proof.
  induction l as [|o l IH]; intros s; simpl; [auto |].
  destruct (IH (step o s)) as [-> ->]. apply step_addresses.
Qed.

(** X4: on a host whose own settings and driver area fit below [NVS_SIZE],
    the slots chosen by an initialisation that goes through stay, through
    every run, the top two slots of the storage: the current slot ends at
    [NVS_SIZE], the previous slot ends where the current one starts, and the
    previous slot starts above the settings of the host and the driver
    area. *)
Theorem slots_in_free_room (h : host) (l : list op) :
  init_ok h = true ->
  0 <= GRBL_NVS_SIZE ->
  0 <= driver_area_size h ->
  GRBL_NVS_SIZE + driver_area_size h <= NVS_SIZE < 2 ^ 32 ->
  let s := run l (odometer_init (boot h)) in
  odometers_address (st s) + slot_size = NVS_SIZE
  /\ odometers_address_prv (st s) + slot_size = odometers_address (st s)
  /\ GRBL_NVS_SIZE + driver_area_size h <= odometers_address_prv (st s).
Proof.
  intros Hok Hg Hd Hfit. simpl.
  destruct (run_addresses l (odometer_init (boot h))) as [-> ->].
  destruct (init_addresses h Hok) as [-> ->].
  destruct (init_ok_cases h Hok) as [_ Hroom].
  apply Z.ltb_ge in Hroom. rewrite nvs_needed_eq in Hroom.
  unfold nvs_free in Hroom. simpl in Hroom.
  pose proof slot_size_range as Hslot. fold slot_size in Hslot.
  rewrite u32_small in Hroom by lia.
  rewrite (u32_small (NVS_SIZE - slot_size)) by lia.
  rewrite u32_small by lia. lia.
Qed.

(** ** Storage and the current record *)

Lemma step_host_constants (o : op) (s : state) :
  physical_nvs (env (step o s)) = physical_nvs (env s)
  /\ driver_area_size (env (step o s)) = driver_area_size (env s).
Proof.
  destruct o as [step_out| | | | | |sys_state args|].
  - cbn [step]. destruct (pulse_shape step_out s) as [stp ->]. simpl. auto.
  - open_ops. repeat case_match; simpl; auto.
  - open_ops. repeat case_match; simpl; auto.
  - open_ops. repeat case_match; simpl; auto.
  - open_ops. repeat case_match; simpl; auto.
  - open_ops. repeat case_match; simpl; auto.
  - cbn [step]. unfold odometer_command. open_ops.
    repeat case_match; simplify_eq; simpl;
      rewrite ?odometers_report_lines; simpl; auto.
  - open_ops. repeat case_match; simpl; auto.
Qed.

Lemma run_host_constants (l : list op) :
  forall s : state,
  physical_nvs (env (run l s)) = physical_nvs (env s)
  /\ driver_area_size (env (run l s)) = driver_area_size (env s).
Proof.
  induction l as [|o l IH]; intros s; simpl; [auto |].
  destruct (IH (step o s)) as [-> ->]. apply step_host_constants.
Qed.

Lemma init_host_constants (h : host) :
  init_ok h = true ->
  physical_nvs (env (odometer_init (boot h))) = physical_nvs h
  /\ driver_area_size (env (odometer_init (boot h))) = driver_area_size h.
Proof.
  intros Hok. destruct (init_ok_cases h Hok) as [Htype Hroom].
  unfold odometer_init, nvs_free in *. simpl in *. rewrite Htype. simpl.
  rewrite Hroom. unfold memcpy_from_nvs. simpl.
  destruct (nvs_mem h !! u32 (NVS_SIZE - slot_size)); simpl; auto.
Qed.

Lemma write_in_step (s : state) : in_step (odometers_write s).
Proof. unfold in_step, odometers_write. open_ops. simpl. apply lookup_insert_eq. Qed.

Lemma step_in_step (o : op) (s : state) :
  is_spindle_off o = false -> in_step s -> in_step (step o s).
Proof.
  unfold in_step. intros Hoff Hin.
  destruct o as [step_out| | |on now| | |sys_state args|]; simpl in Hoff.
  - cbn [step]. destruct (pulse_shape step_out s) as [stp ->]. simpl. exact Hin.
  - cbn [step]. unfold onStateChanged. rewrite call_if_set_forwarded.
    open_ops. repeat case_match; simpl; auto. apply lookup_insert_eq.
  - apply write_in_step.
  - apply negb_false_iff in Hoff. subst on. open_ops. simpl. exact Hin.
  - open_ops. repeat case_match; simpl; auto.
  - open_ops. repeat case_match; simpl; auto.
  - cbn [step]. unfold odometer_command. open_ops.
    repeat case_match; simplify_eq; simpl;
      rewrite ?odometers_report_lines; simpl; auto; apply lookup_insert_eq.
  - open_ops. repeat case_match; simpl; auto.
Qed.

(** X5: once the current slot holds the current record it keeps doing so
    through every operation except a switch-off of the spindle, which only
    queues the write; the queued write brings the slot up to date again. *)
Theorem storage_follows_record (o : op) (s : state) :
  in_step s ->
  (is_spindle_off o = false -> in_step (step o s))
  /\ in_step (odometers_write (step o s)).
Proof.
  intros Hin. split.
  - intros Hoff. apply step_in_step; assumption.
  - apply write_in_step.
Qed.

(** X6: a restart brings the current record back. When, after any run of
    the plugin, the current slot holds the current record, an initialisation
    from zeroed statics on the same host reads that record and leaves the
    storage as it is. *)
Theorem power_cycle_restores_record (h : host) (l : list op) :
  init_ok h = true ->
  in_step (run l (odometer_init (boot h))) ->
  let s := run l (odometer_init (boot h)) in
  let s' := odometer_init (boot (env s)) in
  odometers (st s') = odometers (st s)
  /\ nvs_mem (env s') = nvs_mem (env s).
Proof.
  intros Hok Hin. simpl.
  set (s := run l (odometer_init (boot h))) in *.
  assert (init_ok (env s) = true) as Hok'.
  { destruct (run_host_constants l (odometer_init (boot h))) as [Ht Hd].
    destruct (init_host_constants h Hok) as [Ht0 Hd0].
    fold s in Ht, Hd. unfold init_ok, nvs_free in *. simpl in *.
    rewrite Ht, Hd, Ht0, Hd0. exact Hok. }
  assert (odometers_address (st s) = u32 (NVS_SIZE - slot_size)) as Haddr.
  { destruct (run_addresses l (odometer_init (boot h))) as [Ha _].
    fold s in Ha. rewrite Ha. apply (init_addresses h Hok). }
  unfold in_step in Hin. rewrite Haddr in Hin.
  destruct (init_with_record (env s) (odometers (st s)) Hok' Hin) as (H1 & _ & H3 & _).
  auto.
Qed.

(** X7: the two handlers that may run in interrupt context, the pulse hook
    and the spindle set-state wrapper, never write to storage and never touch
    the in-memory previous record. *)
Theorem isr_handlers_leave_storage (o : op) (s : state) :
  is_isr o = true ->
  nvs_mem (env (step o s)) = nvs_mem (env s)
  /\ odometers_prv (st (step o s)) = odometers_prv (st s)
  /\ forall address,
       writes_to address (trace (env (step o s))) = writes_to address (trace (env s)).
Proof.
  intros Hisr. destruct o as [step_out| | |on now| | | |]; try discriminate.
  - cbn [step]. destruct (pulse_shape step_out s) as [stp ->]. simpl.
    repeat split. intros a. rewrite writes_to_app. simpl. lia.
  - open_ops. repeat case_match; simpl; repeat split; intros a;
      rewrite ?writes_to_app; simpl; lia.
Qed.

(** ** The pulse hook *)

(** X8: a step pulse adds one, in 32 bits, to the counter of each axis whose
    signal is set and to no other, sets the dirty flag, leaves the current
    record alone, and ends with exactly one call of the pulse handler it
    replaced, with the same signals; the host sees nothing else. *)
Theorem pulse_counts_and_forwards (step_out : Z) (X : nat) (s : state) :
  length (steps (st s)) = N_AXIS ->
  (X < N_AXIS)%nat ->
  let s' := stepperPulseStart step_out s in
  steps_at X (steps (st s'))
    = (if Z.testbit step_out (Z.of_nat X) then u32 (steps_at X (steps (st s)) + 1)
       else steps_at X (steps (st s)))
  /\ odometer_changed (st s') = true
  /\ odometers (st s') = odometers (st s)
  /\ env s' = set_trace
       (trace (env s)
        ++ [Call (stepper_pulse_start (saved (st s))) (arg_stepper step_out)])
       (env s).
Proof.
  intros Hlen HX. cbv zeta.
  destruct (pulse_at step_out X s Hlen HX) as (_ & A & O & C & _).
  rewrite A, O, C.
  destruct (pulse_shape step_out s) as [stp ->]. auto.
Qed.

(** ** The step counters *)

Lemma count_step_range (step_out : Z) (idx : nat) (s : state) :
  Forall (fun n => 0 <= n < 2 ^ 32) (steps (st s)) ->
  Forall (fun n => 0 <= n < 2 ^ 32) (steps (st (count_step step_out idx s)))
  /\ length (steps (st (count_step step_out idx s))) = length (steps (st s))
  /\ odometer_changed (st (count_step step_out idx s)) = odometer_changed (st s).
Proof.
  intros Hr. unfold count_step.
  destruct (Z.testbit step_out (Z.of_nat idx)); simpl; [| auto].
  unfold incr. rewrite length_insert. repeat split.
  apply Forall_insert; [exact Hr | apply u32_range].
Qed.

Lemma count_optional_step_range (present : bool) (step_out : Z) (idx : nat) (s : state) :
  Forall (fun n => 0 <= n < 2 ^ 32) (steps (st s)) ->
  let s' := if present then count_step step_out idx s else s in
  Forall (fun n => 0 <= n < 2 ^ 32) (steps (st s'))
  /\ length (steps (st s')) = length (steps (st s))
  /\ odometer_changed (st s') = odometer_changed (st s).
Proof.
  intros Hr. destruct present; simpl; [apply count_step_range; exact Hr | auto].
Qed.

Lemma pulse_range (step_out : Z) (s : state) :
  Forall (fun n => 0 <= n < 2 ^ 32) (steps (st s)) ->
  Forall (fun n => 0 <= n < 2 ^ 32) (steps (st (stepperPulseStart step_out s)))
  /\ length (steps (st (stepperPulseStart step_out s))) = length (steps (st s))
  /\ odometer_changed (st (stepperPulseStart step_out s)) = true.
Proof.
  intros Hr. unfold stepperPulseStart.
  set (s0 := on_st (set_odometer_changed true) s).
  assert (Forall (fun n => 0 <= n < 2 ^ 32) (steps (st s0))) as R0 by exact Hr.
  destruct (count_step_range step_out X_AXIS s0 R0) as (R1 & L1 & C1).
  set (s1 := count_step step_out X_AXIS s0) in *.
  destruct (count_step_range step_out Y_AXIS s1 R1) as (R2 & L2 & C2).
  set (s2 := count_step step_out Y_AXIS s1) in *.
  destruct (count_step_range step_out Z_AXIS s2 R2) as (R3 & L3 & C3).
  set (s3 := count_step step_out Z_AXIS s2) in *.
  destruct (count_optional_step_range (A_AXIS <? N_AXIS)%nat step_out A_AXIS s3 R3)
    as (R4 & L4 & C4).
  set (s4 := if (A_AXIS <? N_AXIS)%nat then count_step step_out A_AXIS s3 else s3) in *.
  destruct (count_optional_step_range (B_AXIS <? N_AXIS)%nat step_out B_AXIS s4 R4)
    as (R5 & L5 & C5).
  set (s5 := if (B_AXIS <? N_AXIS)%nat then count_step step_out B_AXIS s4 else s4) in *.
  destruct (count_optional_step_range (C_AXIS <? N_AXIS)%nat step_out C_AXIS s5 R5)
    as (R6 & L6 & C6).
  set (s6 := if (C_AXIS <? N_AXIS)%nat then count_step step_out C_AXIS s5 else s5) in *.
  simpl. repeat split.
  - exact R6.
  - rewrite L6, L5, L4, L3, L2, L1. reflexivity.
  - rewrite C6, C5, C4, C3, C2, C1. reflexivity.
Qed.

(** The flush, on the step counters alone. *)
Lemma flush_steps_counters (spm : list float) (n : nat) :
  forall (stp : list Z) (dist : list float),
  (n <= length stp)%nat ->
  length (fst (flush_steps spm n (stp, dist))) = length stp
  /\ length (snd (flush_steps spm n (stp, dist))) = length dist
  /\ forall X, steps_at X (fst (flush_steps spm n (stp, dist)))
               = if decide (X < n)%nat then 0 else steps_at X stp.
Proof.
  induction n as [|i IH]; intros stp dist Hs.
  - simpl. auto.
  - cbn [flush_steps]. unfold flush_axis.
    destruct (steps_at i stp =? 0) eqn:Hz.
    + apply Z.eqb_eq in Hz.
      destruct (IH stp dist ltac:(lia)) as (L1 & L2 & A).
      rewrite L1, L2. repeat split. intros X. rewrite A.
      repeat case_decide; try lia; auto.
      replace X with i by lia. exact Hz.
    + destruct (IH (<[i := 0]> stp)
                  (<[i := f32_add (float_at i dist)
                            (f32_div (f32_of_Z (steps_at i stp)) (float_at i spm))]> dist)
                  ltac:(rewrite length_insert; lia)) as (L1 & L2 & A).
      rewrite L1, L2, !length_insert. repeat split. intros X. rewrite A.
      rewrite steps_at_insert by lia.
      repeat case_decide; subst; try lia; auto.
Qed.

Lemma all_zero (l : list Z) :
  (forall X, steps_at X l = if decide (X < length l)%nat then 0 else steps_at X l) ->
  Forall (fun n => n = 0) l.
Proof.
  intros H. apply Forall_lookup. intros i x Hx.
  pose proof (lookup_lt_Some _ _ _ Hx) as Hi.
  specialize (H i). unfold steps_at in H. rewrite Hx in H. simpl in H.
  case_decide; [exact H | lia].
Qed.

Lemma init_counters (h : host) :
  init_ok h = true ->
  steps (st (odometer_init (boot h))) = replicate N_AXIS 0
  /\ odometer_changed (st (odometer_init (boot h))) = false.
Proof.
  intros Hok. destruct (init_ok_cases h Hok) as [Htype Hroom].
  unfold odometer_init, nvs_free in *. simpl in *. rewrite Htype. simpl.
  rewrite Hroom. unfold memcpy_from_nvs. simpl.
  destruct (nvs_mem h !! u32 (NVS_SIZE - slot_size)); simpl; auto.
Qed.

Lemma zeros_in_range (l : list Z) :
  Forall (fun n => n = 0) l -> Forall (fun n => 0 <= n < 2 ^ 32) l.
Proof. intros H. apply (Forall_impl _ _ _ H). intros n ->. lia. Qed.

Lemma step_counters_ok (o : op) (s : state) : counters_ok s -> counters_ok (step o s).
Proof.
  unfold counters_ok. intros (Hlen & Hr & Hz).
  destruct o as [step_out|sys_state now| | | | |sys_state args|].
  - cbn [step]. destruct (pulse_range step_out s Hr) as (R & L & C).
    rewrite L, C. repeat split; auto. discriminate.
  - cbn [step]. unfold onStateChanged. rewrite call_if_set_forwarded, emit_all_st.
    destruct (in_motion sys_state); [simpl; auto |].
    destruct (odometer_changed (st s)) eqn:Hdirty; [| simpl; rewrite Hdirty; auto].
    unfold memcpy_to_nvs. simpl.
    destruct (flush_steps_counters (steps_per_mm (env s)) N_AXIS (steps (st s))
                (distance (odometers (st s))) ltac:(lia)) as (L & _ & A).
    assert (Forall (fun n => n = 0)
              (fst (flush_steps (steps_per_mm (env s)) N_AXIS
                      (steps (st s), distance (odometers (st s)))))) as Hall.
    { apply all_zero. intros X. rewrite L, Hlen, A.
      case_decide; reflexivity. }
    rewrite L. repeat split; auto. apply zeros_in_range. exact Hall.
  - open_ops. simpl. auto.
  - open_ops. repeat case_match; simpl; auto.
  - open_ops. repeat case_match; simpl; auto.
  - open_ops. repeat case_match; simpl; auto.
  - cbn [step].
    destruct (command_keeps_counters sys_state args s) as (-> & -> & _). auto.
  - open_ops. repeat case_match; simpl; auto.
Qed.

(** X9: in every reachable state there is one step counter per axis, each
    counter is a 32-bit value, and while the dirty flag is clear every
    counter is 0: no counted step waits without the flag that gets it
    flushed. *)
Theorem counters_invariant (s : state) : reachable s -> counters_ok s.
Proof.
  induction 1 as [h Hok | o s Hs IH].
  - destruct (init_counters h Hok) as [Hsteps Hclean].
    unfold counters_ok. rewrite Hsteps, Hclean, length_replicate.
    assert (Forall (fun n => n = 0) (replicate N_AXIS 0)) as Hall
      by (apply Forall_replicate; reflexivity).
    repeat split; auto. apply zeros_in_range. exact Hall.
  - apply step_counters_ok. exact IH.
Qed.


(** ** Motor time *)

Lemma pending_step_time (o : op) (s : state) :
  keeps_pending o = true ->
  state_ms (st (step o s)) = last_motion_tick (state_ms (st s)) [o]
  /\ motors (odometers (st (step o s))) = motors (odometers (st s))
  /\ odometer_changed (st (step o s)) = odometer_changed (st s) || is_pulse o.
Proof.
  intros Hkeep.
  destruct o as [step_out|sys_state now| |on now| | |sys_state args|];
    simpl in Hkeep; cbn [last_motion_tick is_pulse].
  - cbn [step]. destruct (pulse_shape step_out s) as [stp ->]. simpl.
    rewrite orb_true_r. auto.
  - cbn [step]. unfold onStateChanged.
    rewrite Hkeep, call_if_set_forwarded. simpl. rewrite orb_false_r. auto.
  - open_ops. simpl. rewrite orb_false_r. auto.
  - open_ops. repeat case_match; simpl; rewrite orb_false_r; auto.
  - open_ops. repeat case_match; simpl; rewrite orb_false_r; auto.
  - open_ops. repeat case_match; simpl; rewrite orb_false_r; auto.
  - apply negb_true_iff in Hkeep. cbn [step].
    rewrite (command_keeps_odometers _ _ _ Hkeep).
    destruct (command_keeps_counters sys_state args s) as (_ & -> & _).
    rewrite orb_false_r. repeat split.
    unfold odometer_command. open_ops.
    repeat case_match; simplify_eq; simpl;
      rewrite ?odometers_report_lines; simpl; auto.
  - open_ops. repeat case_match; simpl; rewrite orb_false_r; auto.
Qed.

Lemma last_motion_tick_cons (t : Z) (o : op) (l : list op) :
  last_motion_tick t (o :: l) = last_motion_tick (last_motion_tick t [o]) l.
Proof. destruct o; reflexivity. Qed.

Lemma run_pending_time (l : list op) :
  forall s : state,
  forallb keeps_pending l = true ->
  state_ms (st (run l s)) = last_motion_tick (state_ms (st s)) l
  /\ motors (odometers (st (run l s))) = motors (odometers (st s))
  /\ odometer_changed (st (run l s)) = odometer_changed (st s) || existsb is_pulse l.
Proof.
  induction l as [|o l IH]; intros s Hkeep.
  - simpl. rewrite orb_false_r. auto.
  - simpl in Hkeep. apply andb_prop in Hkeep as [Ho Hl].
    destruct (pending_step_time o s Ho) as (T & M & C).
    destruct (IH (step o s) Hl) as (T' & M' & C').
    cbn [run existsb]. rewrite T', M', C', T, M, C.
    rewrite (last_motion_tick_cons (state_ms (st s)) o l), orb_assoc.
    repeat split; reflexivity.
Qed.

(** X10: the motor time a flush adds is counted from the last notification
    of a motion state before it, not from the first: after a run with pending
    steps and no flush or reset, a notification of a state without motion at
    tick [now] adds [now] minus the tick of the last motion-state
    notification of the run, in 32 bits, to the motor time, in 64 bits. *)
Theorem motor_time_since_last_motion_state
    (l : list op) (sys_state now : Z) (s : state) :
  forallb keeps_pending l = true ->
  odometer_changed (st s) || existsb is_pulse l = true ->
  in_motion sys_state = false ->
  motors (odometers (st (onStateChanged sys_state now (run l s))))
  = u64 (motors (odometers (st s))
         + u32 (now - last_motion_tick (state_ms (st s)) l)).
Proof.
  intros Hkeep Hdirty Hidle.
  destruct (run_pending_time l s Hkeep) as (T & M & C).
  rewrite Hdirty in C. rewrite <- T, <- M.
  unfold onStateChanged. rewrite Hidle, C, call_if_set_forwarded. reflexivity.
Qed.

(** X18: notifications of states without motion count once. Whatever the
    first one found, a second one right after it changes no static and
    nothing in storage: no time and no distance is added twice. *)
Theorem idle_notifications_count_once (sys_state1 now1 sys_state2 now2 : Z) (s : state) :
  in_motion sys_state1 = false ->
  in_motion sys_state2 = false ->
  let s1 := onStateChanged sys_state1 now1 s in
  let s2 := onStateChanged sys_state2 now2 s1 in
  st s2 = st s1
  /\ nvs_mem (env s2) = nvs_mem (env s1)
  /\ forall address,
       writes_to address (trace (env s2)) = writes_to address (trace (env s1)).
Proof.
  intros Hidle1 Hidle2. cbv zeta.
  assert (odometer_changed (st (onStateChanged sys_state1 now1 s)) = false) as Hclean.
  { unfold onStateChanged. rewrite Hidle1, call_if_set_forwarded, emit_all_st.
    destruct (odometer_changed (st s)) eqn:Hd; [reflexivity | exact Hd]. }
  set (s1 := onStateChanged sys_state1 now1 s) in *.
  unfold onStateChanged at 1 2 3. rewrite Hidle2, Hclean, call_if_set_forwarded.
  repeat split. intros a. simpl. rewrite writes_to_app, writes_to_forwarded. lia.
Qed.

(** ** Axes that did not step *)

(** X11: an axis without a pending step and without a pulse in the run keeps
    its distance bit for bit through the next notification, whatever the
    state and whatever the other axes did. *)
Theorem idle_axis_keeps_distance
    (X : nat) (l : list op) (sys_state now : Z) (s : state) :
  (X < N_AXIS)%nat ->
  length (steps (st s)) = N_AXIS ->
  length (distance (odometers (st s))) = N_AXIS ->
  steps_at X (steps (st s)) = 0 ->
  forallb keeps_pending l = true ->
  pulses_on X l = 0 ->
  float_at X (distance (odometers (st (onStateChanged sys_state now (run l s)))))
  = float_at X (distance (odometers (st s))).
Proof.
  intros HX Hs Hd Hzero Hkeep Hnone.
  destruct (run_pending X l s Hkeep Hs HX ltac:(lia)) as (L & A & D & E & _).
  rewrite Hzero, Hnone in A. change (u32 (0 + 0)) with 0 in A.
  destruct (in_motion sys_state) eqn:Hmotion.
  - unfold onStateChanged. rewrite Hmotion, call_if_set_forwarded. simpl.
    rewrite D. reflexivity.
  - destruct (odometer_changed (st (run l s))) eqn:Hdirty.
    + destruct (flush_at X sys_state now (run l s) Hmotion Hdirty HX L
                  ltac:(rewrite D; exact Hd)) as (F & _).
      rewrite F, A, D. reflexivity.
    + unfold onStateChanged. rewrite Hmotion, Hdirty, call_if_set_forwarded.
      simpl. rewrite D. reflexivity.
Qed.

(** ** The report lines *)

Lemma fmt_ld_2_below_60 (n : nat) :
  (n < 60)%nat -> fmt_ld_2 (Z.of_nat n) = two_digits (Z.of_nat n).
Proof.
  intros Hn.
  do 60 (destruct n as [|n]; [vm_compute; reflexivity |]). lia.
Qed.

(** X12: for a time below 2^31 hours the line of the report is the label,
    the whole hours in decimal, a colon, and the whole minutes of the
    started hour as two digits; seconds and milliseconds are dropped. *)
Theorem hours_line_format (label : string) (ms : Z) :
  0 <= ms < 2 ^ 31 * 3600000 ->
  hours_line label ms
  = label +:+ " " +:+ pretty (ms / 3600000) +:+ ":"
      +:+ two_digits ((ms / 60000) mod 60).
Proof.
  intros Hms. unfold hours_line.
  assert (0 <= ms / 3600000 < 2 ^ 31) as Hhr.
  { split; [apply Z.div_pos; lia | apply Z.div_lt_upper_bound; lia]. }
  assert (0 <= (ms / 60000) mod 60 < 60) as Hmin by (apply Z.mod_pos_bound; lia).
  rewrite !u32_small by lia.
  unfold fmt_ld, as_long.
  assert ((ms / 3600000 <? 2 ^ 31) = true) as -> by (apply Z.ltb_lt; lia).
  rewrite <- (Z2Nat.id ((ms / 60000) mod 60)) at 1 by lia.
  rewrite fmt_ld_2_below_60 by lia.
  rewrite Z2Nat.id by lia. reflexivity.
Qed.

(** ** Reset, then look back *)

Lemma rst_is_not_prev (a : string) :
  strcmp0 a "RST" = true -> strcmp0 a "PREV" = false.
Proof.
  intros H. apply strcmp0_eq in H. unfold strcmp0. rewrite H. reflexivity.
Qed.

(** X13: after the RST command the PREV query reports the record that was
    current before the reset, returns [Status_OK], and leaves the current
    record all zero. *)
Theorem reset_then_prev_reports_old
    (sys_state1 sys_state2 : Z) (a b : string) (s : state) :
  reachable s ->
  strcmp0 (strcaps a) "RST" = true ->
  strcmp0 (strcaps b) "PREV" = true ->
  let s1 := snd (odometer_command sys_state1 (Some a) s) in
  let r := odometer_command sys_state2 (Some b) s1 in
  fst r = Status_OK
  /\ trace (env (snd r)) = trace (env s1) ++ report_lines (odometers (st s))
  /\ odometers (st (snd r)) = zero_record
  /\ odometers_prv (st (snd r)) = odometers (st s).
Proof.
  intros Hreach Hrst Hprev. cbv zeta.
  pose proof (reachable_slots_distinct s Hreach) as Hne.
  assert (snd (odometer_command sys_state1 (Some a) s) = odometer_data_reset true s)
    as ->.
  { unfold odometer_command. rewrite (rst_is_not_prev _ Hrst), Hrst. reflexivity. }
  destruct (reset_backup_effect s) as (Hst & Hmem & _).
  unfold odometer_command. rewrite Hprev, (prev_is_not_rst _ Hprev).
  unfold memcpy_from_nvs. rewrite Hst, Hmem. simpl.
  rewrite lookup_insert_ne, lookup_insert_eq by exact Hne. simpl.
  rewrite odometers_report_lines. simpl. auto.
Qed.

(** ** Keeping the hooks *)

(** X14: a settings change leaves the pulse hook of the plugin installed
    and never makes the plugin forward to itself: afterwards the entry point
    of the host is the hook of the plugin, the saved handler is the one found
    there if it was another one and the old saved handler otherwise, and the
    next step pulse ends with a call of that handler. *)
Theorem settings_change_keeps_pulse_chain (step_out : Z) (s : state) :
  stepper_pulse_start (saved (st s)) <> fn_stepperPulseStart ->
  let s1 := onSettingsChanged s in
  hal_stepper_pulse_start (entries (env s1)) = fn_stepperPulseStart
  /\ stepper_pulse_start (saved (st s1)) <> fn_stepperPulseStart
  /\ stepper_pulse_start (saved (st s1))
     = (if decide (hal_stepper_pulse_start (entries (env s)) = fn_stepperPulseStart)
        then stepper_pulse_start (saved (st s))
        else hal_stepper_pulse_start (entries (env s)))
  /\ last (trace (env (stepperPulseStart step_out s1)))
     = Some (Call (stepper_pulse_start (saved (st s1))) (arg_stepper step_out)).
Proof.
  intros Hsaved. cbv zeta.
  destruct (pulse_shape step_out (onSettingsChanged s)) as [stp ->].
  unfold onSettingsChanged. open_ops. simpl.
  case_bool_decide as Hown; case_decide; try contradiction; simpl;
    rewrite last_snoc; auto.
Qed.

Lemma init_spindle_ptr (h : host) :
  init_ok h = true ->
  spindle_set_state_ (saved (st (odometer_init (boot h)))) = fn_null.
Proof.
  intros Hok. destruct (init_ok_cases h Hok) as [Htype Hroom].
  unfold odometer_init, nvs_free in *. simpl in *. rewrite Htype. simpl.
  rewrite Hroom. unfold memcpy_from_nvs. simpl.
  destruct (nvs_mem h !! u32 (NVS_SIZE - slot_size)); reflexivity.
Qed.

Lemma step_spindle_ptr (o : op) (s : state) :
  spindle_set_state_ (saved (st s)) <> fn_onSpindleSetState ->
  spindle_set_state_ (saved (st (step o s))) <> fn_onSpindleSetState.
Proof.
  intros Hs. destruct o as [step_out| | | |sp| |sys_state args|].
  - cbn [step]. destruct (pulse_shape step_out s) as [stp ->]. simpl. exact Hs.
  - open_ops. repeat case_match; simpl; auto.
  - open_ops. repeat case_match; simpl; auto.
  - open_ops. repeat case_match; simpl; auto.
  - cbn [step]. unfold onSpindleSelected. rewrite call_if_set_forwarded, emit_all_st.
    simpl. destruct (spindle_id sp =? 0); simpl; [| exact Hs].
    case_bool_decide as Hown; simpl; [exact Hs | exact Hown].
  - open_ops. repeat case_match; simpl; auto.
  - cbn [step]. unfold odometer_command. open_ops.
    repeat case_match; simplify_eq; simpl;
      rewrite ?odometers_report_lines; simpl; auto.
  - open_ops. repeat case_match; simpl; auto.
Qed.

(** X15: in every reachable state the handler that the spindle set-state
    wrapper forwards to is not the wrapper itself, however often and with
    whatever spindle the host announces a selection. *)
Theorem spindle_wrapper_never_wraps_itself (s : state) :
  reachable s -> spindle_set_state_ (saved (st s)) <> fn_onSpindleSetState.
Proof.
  induction 1 as [h Hok | o s Hs IH].
  - rewrite (init_spindle_ptr h Hok). discriminate.
  - apply step_spindle_ptr. exact IH.
Qed.

(** ** The spindle interval across a wrap of the tick counter *)

Lemma u32_difference (a b : Z) :
  0 <= a < 2 ^ 32 -> 0 <= b < 2 ^ 32 ->
  u32 (b - a) = if a <=? b then b - a else b - a + 2 ^ 32.
Proof.
  intros Ha Hb. destruct (a <=? b) eqn:Hle.
  - apply Z.leb_le in Hle. apply u32_small. lia.
  - apply Z.leb_gt in Hle. unfold u32. symmetry.
    apply (Z.mod_unique _ _ (-1)); lia.
Qed.

(** X16: a spindle that goes on at a tick other than 0 and off at a later
    reading of the 32-bit tick counter adds the ticks in between to the
    spindle time, also when the counter wrapped once in between; the start
    mark is cleared and one write is queued, none is done. *)
Theorem spindle_interval_across_tick_wrap (on_tick off_tick : Z) (s : state) :
  0 < on_tick < 2 ^ 32 ->
  0 <= off_tick < 2 ^ 32 ->
  let s' := onSpindleSetState false off_tick (onSpindleSetState true on_tick s) in
  spindle (odometers (st s'))
    = u64 (spindle (odometers (st s))
           + (if on_tick <=? off_tick then off_tick - on_tick
              else off_tick - on_tick + 2 ^ 32))
  /\ spindle_ms (st s') = 0
  /\ nvs_mem (env s') = nvs_mem (env s)
  /\ trace (env s')
     = trace (env s) ++ [Call (spindle_set_state_ (saved (st s))) (arg_spindle_state true);
                         Call (spindle_set_state_ (saved (st s))) (arg_spindle_state false);
                         TaskAddImmediate odometers_write_task].
Proof.
  intros Hon Hoff. cbv zeta.
  destruct (spindle_interval on_tick off_tick s ltac:(lia)) as (Hsp & Htr).
  rewrite Hsp, Htr, u32_difference by lia.
  repeat split.
  - unfold onSpindleSetState. open_ops. simpl.
    assert ((on_tick =? 0) = false) as -> by (apply Z.eqb_neq; lia).
    reflexivity.
  - unfold onSpindleSetState. open_ops. simpl.
    assert ((on_tick =? 0) = false) as -> by (apply Z.eqb_neq; lia).
    reflexivity.
Qed.

(** ** The flush as a whole *)

(** X19: a notification of a state without motion that finds steps pending
    zeroes the counter of every axis, clears the dirty flag, and writes the
    updated current record to the current slot exactly once, before it
    forwards the notification. *)
Theorem flush_writes_once (sys_state now : Z) (s : state) :
  in_motion sys_state = false ->
  odometer_changed (st s) = true ->
  length (steps (st s)) = N_AXIS ->
  let s' := onStateChanged sys_state now s in
  Forall (fun n => n = 0) (steps (st s'))
  /\ odometer_changed (st s') = false
  /\ trace (env s')
     = trace (env s)
       ++ NvsWrite (odometers_address (st s)) (odometers (st s'))
          :: forwarded (on_state_change (saved (st s))) (arg_state sys_state)
  /\ in_step s'.
Proof.
  intros Hidle Hdirty Hlen. cbv zeta. unfold in_step, onStateChanged.
  rewrite Hidle, Hdirty, call_if_set_forwarded. unfold memcpy_to_nvs. simpl.
  destruct (flush_steps_counters (steps_per_mm (env s)) N_AXIS (steps (st s))
              (distance (odometers (st s))) ltac:(lia)) as (L & _ & A).
  repeat split.
  - apply all_zero. intros X. rewrite L, Hlen, A. case_decide; reflexivity.
  - rewrite <- app_assoc. reflexivity.
  - apply lookup_insert_eq.
Qed.

(** ** Two resets in a row *)

(** X20: the previous record holds one generation only. A second RST right
    after the first overwrites the saved record with the all-zero record the
    first one left as current, in memory and in the previous slot. *)
Theorem double_reset_clears_previous (sys_state1 sys_state2 : Z) (a b : string) (s : state) :
  reachable s ->
  strcmp0 (strcaps a) "RST" = true ->
  strcmp0 (strcaps b) "RST" = true ->
  let s2 := snd (odometer_command sys_state2 (Some b)
                   (snd (odometer_command sys_state1 (Some a) s))) in
  odometers_prv (st s2) = zero_record
  /\ previous_slot s2 = Some zero_record
  /\ odometers (st s2) = zero_record.
Proof.
  intros Hreach Ha Hb. cbv zeta.
  pose proof (reachable_slots_distinct s Hreach) as Hne.
  assert (forall ss c t, strcmp0 (strcaps c) "RST" = true ->
            snd (odometer_command ss (Some c) t) = odometer_data_reset true t) as Hcmd.
  { intros ss c t Hc. unfold odometer_command.
    rewrite (rst_is_not_prev _ Hc), Hc. reflexivity. }
  rewrite (Hcmd _ _ _ Ha), (Hcmd _ _ _ Hb).
  unfold previous_slot.
  destruct (reset_backup_effect (odometer_data_reset true s)) as (-> & -> & _).
  destruct (reset_backup_effect s) as (-> & _ & _). simpl.
  rewrite lookup_insert_ne, lookup_insert_eq by exact Hne. auto.
Qed.

(** ** Free room below zero *)

(** The free room is compared as an unsigned number: where the settings of
    the host and the driver area together exceed [NVS_SIZE], the difference
    wraps to a large number and the check for two slots passes. *)
Lemma negative_room_passes (h : host) :
  physical_nvs h = NVS_EEPROM \/ physical_nvs h = NVS_FRAM ->
  2 * slot_size - 2 ^ 32 <= NVS_SIZE - GRBL_NVS_SIZE - driver_area_size h < 0 ->
  init_ok h = true.
Proof.
  intros Htype Hroom. unfold init_ok. apply andb_true_intro. split.
  - destruct Htype as [-> | ->]; reflexivity.
  - apply negb_true_iff, Z.ltb_ge. rewrite nvs_needed_eq.
    pose proof slot_size_range as Hslot. fold slot_size in Hslot.
    unfold nvs_free, u32. cbn [env boot].
    rewrite <- (Z.mod_unique (NVS_SIZE - GRBL_NVS_SIZE - driver_area_size h) (2 ^ 32) (-1)
                  (NVS_SIZE - GRBL_NVS_SIZE - driver_area_size h + 2 ^ 32)); lia.
Qed.

End Properties.

(** * The properties on the sample host *)

Section Scenarios.
#[local] Existing Instance Sample.config.

Lemma resumed_reachable : reachable Sample.resumed.
Proof. apply reachable_init. reflexivity. Qed.

Lemma fresh_reachable : reachable Sample.fresh.
Proof. apply reachable_init. reflexivity. Qed.

Example ready_wrapped :
  set_state (selected_spindle (env Sample.ready)) = fn_onSpindleSetState
  /\ spindle_set_state_ (saved (st Sample.ready)) = fn_host 5.
Proof. vm_compute. split; reflexivity. Qed.

(** The current slot is the top one, the previous slot sits below it. *)
Example resumed_slots :
  odometers_address (st Sample.resumed) = 2015
  /\ odometers_address_prv (st Sample.resumed) = 1982
  /\ odometers (st Sample.resumed) = Sample.latest
  /\ odometers_prv (st Sample.resumed) = zero_record.
Proof. vm_compute. repeat split; reflexivity. Qed.

(** ** Reset *)

(** A reset with backup of the resumed plugin. *)
Lemma reset_with_backup_witness :
  reachable Sample.resumed
  /\ odometers (st Sample.resumed) = Sample.latest
  /\ let s' := odometer_data_reset true Sample.resumed in
     odometers_prv (st s') = Sample.latest
     /\ nvs_mem (env s') !! odometers_address_prv (st s') = Some Sample.latest
     /\ odometers (st s') = zero_record
     /\ nvs_mem (env s') !! odometers_address (st s') = Some zero_record
     /\ trace (env s')
        = trace (env Sample.resumed)
          ++ [NvsWrite (odometers_address_prv (st Sample.resumed)) Sample.latest;
              NvsWrite (odometers_address (st Sample.resumed)) zero_record].
Proof.
  split; [exact resumed_reachable |]. split; [reflexivity |].
  apply (reset_with_backup Sample.resumed Sample.latest resumed_reachable).
  reflexivity.
Defined.

(** The reset without backup at its call in odometer_init, on the EEPROM
    whose current slot is unreadable and whose previous slot holds a record. *)
Lemma reset_without_backup_witness :
  odometers_address (st Sample.loading) <> odometers_address_prv (st Sample.loading)
  /\ let s' := odometer_data_reset false Sample.loading in
     odometers_prv (st s') = odometers_prv (st Sample.loading)
     /\ nvs_mem (env s') !! odometers_address_prv (st s')
        = nvs_mem (env Sample.loading) !! odometers_address_prv (st Sample.loading)
     /\ odometers (st s') = zero_record
     /\ nvs_mem (env s') !! odometers_address (st s') = Some zero_record
     /\ trace (env s')
        = trace (env Sample.loading)
          ++ [NvsWrite (odometers_address (st Sample.loading)) zero_record].
Proof.
  assert (odometers_address (st Sample.loading)
          <> odometers_address_prv (st Sample.loading)) as Hne by discriminate.
  split; [exact Hne |].
  apply (reset_without_backup Sample.loading Hne).
Defined.

(** That state is the one odometer_init resets: what the initialisation of
    the same host ends with is what the reset left, and the record of the
    previous slot is still there. *)
Example loading_is_the_call_in_init :
  st (on_st (set_addresses 2015 1982) (on_st (set_nvs NVS_EEPROM) (boot Sample.orphaned)))
  = st Sample.loading
  /\ odometers (st (odometer_init (boot Sample.orphaned)))
     = odometers (st (odometer_data_reset false Sample.loading))
  /\ nvs_mem (env (odometer_init (boot Sample.orphaned)))
     = nvs_mem (env (odometer_data_reset false Sample.loading))
  /\ nvs_mem (env (odometer_data_reset false Sample.loading)) !! 1982
     = Some Sample.earlier.
Proof. vm_compute. repeat split; reflexivity. Qed.

(** ** State changes that carry nothing *)

(** The resumed plugin is told that the machine is idle. *)
Lemma state_change_idle_frame_witness :
  in_motion 0 = false
  /\ odometer_changed (st Sample.resumed) = false
  /\ let s' := onStateChanged 0 5000 Sample.resumed in
     st s' = st Sample.resumed
     /\ nvs_mem (env s') = nvs_mem (env Sample.resumed)
     /\ env s' = set_trace
          (trace (env Sample.resumed)
           ++ forwarded (on_state_change (saved (st Sample.resumed))) (arg_state 0))
          (env Sample.resumed).
Proof.
  split; [reflexivity |]. split; [reflexivity |].
  apply (state_change_idle_frame 0 5000 Sample.resumed); reflexivity.
Defined.

(** ** The command *)

(** A PREV query on storage that never held a previous record. *)
Lemma prev_load_failure_witness :
  strcmp0 (strcaps "prev") "PREV" = true
  /\ snd (memcpy_from_nvs (odometers_prv (st Sample.fresh))
            (odometers_address_prv (st Sample.fresh)) Sample.fresh)
     = NVS_TransferResult_Failed
  /\ let r := odometer_command 0 (Some "prev"%string) Sample.fresh in
     fst r = Status_OK
     /\ trace (env (snd r))
        = trace (env Sample.fresh)
          ++ [ReportMessage "Previous odometer values not available" Message_Warning].
Proof.
  split; [reflexivity |]. split; [reflexivity |].
  apply (prev_load_failure 0 "prev" Sample.fresh); reflexivity.
Defined.

(** The argument FOO. *)
Lemma unknown_argument_witness :
  strcmp0 (strcaps "FOO") "PREV" = false
  /\ strcmp0 (strcaps "FOO") "RST" = false
  /\ odometer_command 0 (Some "FOO"%string) Sample.resumed
     = (Status_Unhandled, Sample.resumed)
  /\ Status_Unhandled <> Status_OK
  /\ forall code, Status_Unhandled <> Status_Error code.
Proof.
  split; [reflexivity |]. split; [reflexivity |].
  apply (unknown_argument 0 "FOO" Sample.resumed); reflexivity.
Defined.

(** ** Initialisation *)

(** Initialisation on a board without EEPROM or FRAM. *)
Lemma init_disabled_witness :
  ((physical_nvs (env (boot Sample.flash)) <> NVS_EEPROM
    /\ physical_nvs (env (boot Sample.flash)) <> NVS_FRAM)
   \/ nvs_free (boot Sample.flash) < 2 * slot_size)
  /\ let s' := odometer_init (boot Sample.flash) in
     entries (env s') = entries (env (boot Sample.flash))
     /\ driver_cap_odometers (env s') = driver_cap_odometers (env (boot Sample.flash))
     /\ nvs_mem (env s') = nvs_mem (env (boot Sample.flash))
     /\ st s' = set_nvs (physical_nvs (env (boot Sample.flash))) (st (boot Sample.flash))
     /\ exists warning,
          env s' = set_trace (trace (env (boot Sample.flash)) ++ [TaskRunOnStartup warning])
                     (env (boot Sample.flash)).
Proof.
  assert (physical_nvs (env (boot Sample.flash)) <> NVS_EEPROM
          /\ physical_nvs (env (boot Sample.flash)) <> NVS_FRAM) as Htype
    by (split; discriminate).
  split; [left; exact Htype |].
  apply (init_disabled (boot Sample.flash)). left. exact Htype.
Defined.

Example init_undersized :
  nvs_free (boot Sample.crowded) = 24
  /\ 2 * slot_size = 66
  /\ odometer_init (boot Sample.crowded)
     = emit (TaskRunOnStartup "Not enough NVS storage for odometers!")
            (on_st (set_nvs NVS_EEPROM) (boot Sample.crowded)).
Proof. vm_compute. repeat split; reflexivity. Qed.

(** ** Initialisation with less than no room *)


(** The same through the general statements: the overfull host passes the
    check. *)
Example overfull_passes : init_ok Sample.overfull = true.
Proof.
  apply negative_room_passes; [left; reflexivity |].
  vm_compute. split; [discriminate | reflexivity].
Qed.

(** ** The two time counters *)

(** A flush five seconds after the start. *)
Lemma time_counters_monotone_witness :
  let o := op_state_changed 0 5000 in
  let s := step (op_pulse 1) Sample.resumed in
  is_reset o = false
  /\ motors (odometers (st s)) + elapsed_of o s < 2 ^ 64
  /\ spindle (odometers (st s)) + elapsed_of o s < 2 ^ 64
  /\ motors (odometers (st s)) <= motors (odometers (st (step o s)))
  /\ spindle (odometers (st s)) <= spindle (odometers (st (step o s))).
Proof.
  intros o s.
  assert (motors (odometers (st s)) + elapsed_of o s < 2 ^ 64) as Hm
    by (vm_compute; reflexivity).
  assert (spindle (odometers (st s)) + elapsed_of o s < 2 ^ 64) as Hs
    by (vm_compute; reflexivity).
  split; [reflexivity |]. split; [exact Hm |]. split; [exact Hs |].
  apply (time_counters_monotone o s eq_refl Hm Hs).
Defined.

(** The motor time read back from storage can be the largest 64-bit value;
    the next flush then wraps it to 0. *)
Lemma motor_time_wraps :
  let s := step (op_pulse 1) (odometer_init (boot Sample.worn)) in
  let s' := step (op_state_changed 0 1) s in
  reachable s
  /\ is_reset (op_state_changed 0 1) = false
  /\ motors (odometers (st s)) = 2 ^ 64 - 1
  /\ motors (odometers (st s')) = 0
  /\ ~ motors (odometers (st s)) <= motors (odometers (st s')).
Proof.
  intros s s'. split.
  { apply reachable_step, reachable_init. reflexivity. }
  split; [reflexivity |].
  assert (motors (odometers (st s)) = 2 ^ 64 - 1) as Hfull by (vm_compute; reflexivity).
  assert (motors (odometers (st s')) = 0) as Hzero by (vm_compute; reflexivity).
  rewrite Hfull, Hzero. repeat split. lia.
Qed.
(** ** Step pulses and the distance *)

(** The short move, flushed when the machine goes idle. *)
Lemma pulses_become_distance_witness :
  (0 < N_AXIS)%nat
  /\ length (steps (st Sample.resumed)) = N_AXIS
  /\ length (distance (odometers (st Sample.resumed))) = N_AXIS
  /\ steps_at 0 (steps (st Sample.resumed)) = 0
  /\ forallb keeps_pending Sample.short_move = true
  /\ 0 < pulses_on 0 Sample.short_move
  /\ in_motion 0 = false
  /\ let N := pulses_on 0 Sample.short_move in
     let d := float_at 0 (distance (odometers (st Sample.resumed))) in
     let scale := float_at 0 (steps_per_mm (env Sample.resumed)) in
     let s' := onStateChanged 0 5000 (run Sample.short_move Sample.resumed) in
     float_at 0 (distance (odometers (st s')))
       = (if u32 N =? 0 then d else f32_add d (f32_div (f32_of_Z (u32 N)) scale))
     /\ steps_at 0 (steps (st s')) = 0
     /\ odometer_changed (st s') = false.
Proof.
  assert (0 < N_AXIS)%nat as HX by (simpl; lia).
  assert (0 < pulses_on 0 Sample.short_move) as Hpos by (simpl; lia).
  repeat (split; [first [exact HX | exact Hpos | reflexivity] |]).
  apply (pulses_become_distance 0 Sample.short_move 0 5000 Sample.resumed HX);
    first [exact Hpos | reflexivity].
Defined.

Example short_move_distance :
  float_at 0 (distance (odometers (st (onStateChanged 0 5000 (run Sample.short_move Sample.resumed)))))
  = f32_add (f32_of_Z 1) (f32_div (f32_of_Z 3) (f32_of_Z 250)).
Proof. vm_compute. reflexivity. Qed.

(** 10,000 pending steps at 100 steps per mm add exactly 100; one pending
    step at 3 steps per mm adds the float next to 1/3, which is not 1/3. *)
Example flushed_10000_at_100 :
  flushed f32_zero 10000 (f32_of_Z 100) = f32_of_Z 100.
Proof. vm_compute. reflexivity. Qed.

Example flushed_1_at_3 :
  flushed f32_zero 1 (f32_of_Z 3) = S754_finite false 11184811 (-25)
  /\ 3 * 11184811 <> 2 ^ 25.
Proof. split; [vm_compute; reflexivity | lia]. Qed.

(** 2^32 pulses on X wrap its counter to 0: the flush adds nothing, although
    2^32 steps at 250 steps per mm are a distance well above 0. *)
Lemma pulses_wrap_counter :
  let l := repeat (op_pulse 1) (Z.to_nat (2 ^ 32)) in
  let s' := onStateChanged 0 5000 (run l Sample.fresh) in
  steps_at 0 (steps (st Sample.fresh)) = 0
  /\ forallb keeps_pending l = true
  /\ pulses_on 0 l = 2 ^ 32
  /\ float_at 0 (steps_per_mm (env Sample.fresh)) = f32_of_Z 250
  /\ float_at 0 (distance (odometers (st Sample.fresh))) = f32_zero
  /\ float_at 0 (distance (odometers (st s'))) = f32_zero
  /\ float_at 0 (distance (odometers (st s')))
     <> f32_add f32_zero (f32_div (f32_of_Z (2 ^ 32)) (f32_of_Z 250)).
Proof.
  intros l s'.
  assert (forallb keeps_pending l = true) as Hkeep by apply keeps_pending_repeat.
  assert (pulses_on 0 l = 2 ^ 32) as HN.
  { subst l. rewrite pulses_on_repeat. change (Z.testbit 1 (Z.of_nat 0)) with true.
    cbv iota. apply Z2Nat.id. lia. }
  assert (float_at 0 (distance (odometers (st s'))) = f32_zero) as Hsame.
  { destruct (flush_after_run 0 l 0 5000 Sample.fresh) as (Hd & _);
      [simpl; lia | reflexivity | reflexivity | reflexivity | exact Hkeep
      | rewrite HN; lia | reflexivity |].
    subst s'. rewrite Hd, HN. vm_compute. reflexivity. }
  split; [reflexivity |]. split; [exact Hkeep |]. split; [exact HN |].
  split; [reflexivity |]. split; [reflexivity |]. split; [exact Hsame |].
  rewrite Hsame. vm_compute. discriminate.
Qed.

(** ** The previous record *)

(** The RST command on the resumed plugin. *)
Lemma previous_record_changes_witness :
  reachable Sample.resumed
  /\ if is_reset (op_command 0 (Some "rst"%string)) then
       odometers_prv (st (step (op_command 0 (Some "rst"%string)) Sample.resumed))
         = odometers (st Sample.resumed)
       /\ previous_slot (step (op_command 0 (Some "rst"%string)) Sample.resumed)
          = Some (odometers (st Sample.resumed))
       /\ previous_writes (step (op_command 0 (Some "rst"%string)) Sample.resumed)
          = S (previous_writes Sample.resumed)
     else
       previous_slot (step (op_command 0 (Some "rst"%string)) Sample.resumed)
         = previous_slot Sample.resumed
       /\ previous_writes (step (op_command 0 (Some "rst"%string)) Sample.resumed)
          = previous_writes Sample.resumed
       /\ odometers_prv (st (step (op_command 0 (Some "rst"%string)) Sample.resumed))
          = (if is_prev_query (op_command 0 (Some "rst"%string))
             then default (odometers_prv (st Sample.resumed)) (previous_slot Sample.resumed)
             else odometers_prv (st Sample.resumed)).
Proof.
  split; [exact resumed_reachable |].
  apply (previous_record_changes (op_command 0 (Some "rst"%string)) Sample.resumed
           resumed_reachable).
Defined.

(** After a start the in-memory previous record is all zero while the
    previous slot holds the record of an earlier reset: the PREV query, which
    is no reset, overwrites the in-memory previous record. *)
Lemma prev_query_overwrites_previous :
  let o := op_command 0 (Some "PREV"%string) in
  reachable Sample.resumed
  /\ is_reset o = false
  /\ odometers_prv (st Sample.resumed) = zero_record
  /\ odometers_prv (st (step o Sample.resumed)) = Sample.earlier
  /\ odometers_prv (st (step o Sample.resumed)) <> odometers_prv (st Sample.resumed).
Proof.
  intros o. split; [exact resumed_reachable |]. split; [reflexivity |].
  assert (odometers_prv (st Sample.resumed) = zero_record) as Hzero
    by (vm_compute; reflexivity).
  assert (odometers_prv (st (step o Sample.resumed)) = Sample.earlier) as Hprev
    by (vm_compute; reflexivity).
  split; [exact Hzero |]. split; [exact Hprev |].
  rewrite Hzero, Hprev. vm_compute. discriminate.
Qed.

(** ** The spindle interval *)

(** C2, on the code: the spindle goes on at tick 0 and off at tick
    3,660,000. The spindle time stays 0, no write is queued, and the report
    that follows shows 0:00 where the claim has 1:01. *)
Theorem spindle_on_at_tick_zero_is_lost :
  let s := onSpindleSetState false 3660000 (onSpindleSetState true 0 Sample.ready) in
  spindle (odometers (st Sample.ready)) = 0
  /\ spindle (odometers (st s)) = 0
  /\ trace (env s)
     = trace (env Sample.ready) ++ [Call (fn_host 5) (arg_spindle_state true);
                             Call (fn_host 5) (arg_spindle_state false)]
  /\ odometer_command 0 None s
     = (Status_OK,
        emit_all [ReportMessage "SPINDLEHRS 0:00" Message_Plain;
                  ReportMessage "MOTORHRS 0:00" Message_Plain;
                  ReportMessage "ODOMETERX 0.0" Message_Plain;
                  ReportMessage "ODOMETERY 0.0" Message_Plain;
                  ReportMessage "ODOMETERZ 0.0" Message_Plain] s).
Proof. vm_compute. repeat split; reflexivity. Qed.

(** The same interval one second later is counted and reported. *)
Example spindle_on_at_tick_1000 :
  let s := onSpindleSetState false 3661000 (onSpindleSetState true 1000 Sample.ready) in
  spindle (odometers (st s)) = 3660000
  /\ trace (env s)
     = trace (env Sample.ready) ++ [Call (fn_host 5) (arg_spindle_state true);
                             Call (fn_host 5) (arg_spindle_state false);
                             TaskAddImmediate odometers_write_task]
  /\ odometer_command 0 None s
     = (Status_OK,
        emit_all [ReportMessage "SPINDLEHRS 1:01" Message_Plain;
                  ReportMessage "MOTORHRS 0:00" Message_Plain;
                  ReportMessage "ODOMETERX 0.0" Message_Plain;
                  ReportMessage "ODOMETERY 0.0" Message_Plain;
                  ReportMessage "ODOMETERZ 0.0" Message_Plain] s).
Proof. vm_compute. repeat split; reflexivity. Qed.

(** * The further properties on the sample host *)

(** ** Initialisation that goes through *)

Lemma init_installs_plugin_witness :
  init_ok Sample.used = true
  /\ let s := odometer_init (boot Sample.used) in
     entries (env s) = plugin_entries
     /\ saved (st s)
        = {| stepper_pulse_start := hal_stepper_pulse_start (entries Sample.used);
             on_state_change := grbl_on_state_change (entries Sample.used);
             on_spindle_selected := grbl_on_spindle_selected (entries Sample.used);
             spindle_set_state_ := fn_null;
             settings_changed := hal_settings_changed (entries Sample.used);
             on_report_options := grbl_on_report_options (entries Sample.used) |}
     /\ driver_cap_odometers (env s) = true
     /\ last (trace (env s)) = Some (RegisterCommands "ODOMETERS")
     /\ nvs (st s) = physical_nvs Sample.used
     /\ steps (st s) = replicate N_AXIS 0
     /\ odometer_changed (st s) = false.
Proof.
  split; [reflexivity |].
  apply (init_installs_plugin Sample.used). reflexivity.
Defined.

Lemma init_loads_stored_record_witness :
  init_ok Sample.used = true
  /\ nvs_mem Sample.used !! u32 (NVS_SIZE - slot_size) = Some Sample.latest
  /\ let s := odometer_init (boot Sample.used) in
     odometers (st s) = Sample.latest
     /\ odometers_prv (st s) = zero_record
     /\ nvs_mem (env s) = nvs_mem Sample.used
     /\ trace (env s) = trace Sample.used ++ [RegisterCommands "ODOMETERS"]
     /\ in_step s.
Proof.
  split; [reflexivity |]. split; [reflexivity |].
  apply (init_loads_stored_record Sample.used Sample.latest); reflexivity.
Defined.

Lemma init_blank_storage_witness :
  init_ok Sample.blank = true
  /\ nvs_mem Sample.blank !! u32 (NVS_SIZE - slot_size) = None
  /\ let s := odometer_init (boot Sample.blank) in
     odometers (st s) = zero_record
     /\ nvs_mem (env s)
        = <[u32 (NVS_SIZE - slot_size) := zero_record]> (nvs_mem Sample.blank)
     /\ trace (env s)
        = trace Sample.blank ++ [NvsWrite (u32 (NVS_SIZE - slot_size)) zero_record;
                                 RegisterCommands "ODOMETERS"]
     /\ in_step s
     /\ previous_slot s = nvs_mem Sample.blank !! odometers_address_prv (st s).
Proof.
  split; [reflexivity |]. split; [reflexivity |].
  apply (init_blank_storage Sample.blank); reflexivity.
Defined.

Lemma slots_in_free_room_witness :
  init_ok Sample.used = true
  /\ 0 <= GRBL_NVS_SIZE
  /\ 0 <= driver_area_size Sample.used
  /\ GRBL_NVS_SIZE + driver_area_size Sample.used <= NVS_SIZE < 2 ^ 32
  /\ let s := run Sample.short_move (odometer_init (boot Sample.used)) in
     odometers_address (st s) + slot_size = NVS_SIZE
     /\ odometers_address_prv (st s) + slot_size = odometers_address (st s)
     /\ GRBL_NVS_SIZE + driver_area_size Sample.used <= odometers_address_prv (st s).
Proof.
  assert (0 <= GRBL_NVS_SIZE) as Hg by (simpl; lia).
  assert (0 <= driver_area_size Sample.used) as Hd by (simpl; lia).
  assert (GRBL_NVS_SIZE + driver_area_size Sample.used <= NVS_SIZE < 2 ^ 32) as Hfit
    by (simpl; lia).
  assert (init_ok Sample.used = true) as Hok by reflexivity.
  split; [exact Hok |]. split; [exact Hg |]. split; [exact Hd |].
  split; [exact Hfit |].
  apply (slots_in_free_room Sample.used Sample.short_move Hok Hg Hd Hfit).
Defined.

(** ** Storage and the current record *)

Lemma stepped_in_step : in_step Sample.stepped.
Proof. vm_compute. reflexivity. Qed.

Lemma storage_follows_record_witness :
  in_step Sample.stepped
  /\ (is_spindle_off (op_state_changed 0 5000) = false ->
      in_step (step (op_state_changed 0 5000) Sample.stepped))
  /\ in_step (odometers_write (step (op_state_changed 0 5000) Sample.stepped)).
Proof.
  split; [exact stepped_in_step |].
  apply (storage_follows_record (op_state_changed 0 5000) Sample.stepped).
  exact stepped_in_step.
Defined.

Lemma power_cycle_restores_record_witness :
  init_ok Sample.used = true
  /\ in_step (run Sample.one_step_flushed (odometer_init (boot Sample.used)))
  /\ let s := run Sample.one_step_flushed (odometer_init (boot Sample.used)) in
     let s' := odometer_init (boot (env s)) in
     odometers (st s') = odometers (st s)
     /\ nvs_mem (env s') = nvs_mem (env s).
Proof.
  assert (in_step (run Sample.one_step_flushed (odometer_init (boot Sample.used))))
    as Hin by (vm_compute; reflexivity).
  assert (init_ok Sample.used = true) as Hok by reflexivity.
  split; [exact Hok |]. split; [exact Hin |].
  apply (power_cycle_restores_record Sample.used Sample.one_step_flushed Hok Hin).
Defined.

(** The record that comes back after the restart has the 5000 ticks and the
    step of the run in it. *)
Example power_cycle_record :
  odometers (st (odometer_init
                   (boot (env (run Sample.one_step_flushed
                                 (odometer_init (boot Sample.used)))))))
  = {| motors := 3605000; spindle := 120000;
       distance := [f32_add (f32_of_Z 1) (f32_div (f32_of_Z 1) (f32_of_Z 250));
                    f32_zero; f32_of_Z 5] |}.
Proof. vm_compute. reflexivity. Qed.

Lemma isr_handlers_leave_storage_witness :
  is_isr (op_spindle_set_state false 9000) = true
  /\ nvs_mem (env (step (op_spindle_set_state false 9000) Sample.ready))
     = nvs_mem (env Sample.ready)
  /\ odometers_prv (st (step (op_spindle_set_state false 9000) Sample.ready))
     = odometers_prv (st Sample.ready)
  /\ forall address,
       writes_to address (trace (env (step (op_spindle_set_state false 9000) Sample.ready)))
       = writes_to address (trace (env Sample.ready)).
Proof.
  split; [reflexivity |].
  apply (isr_handlers_leave_storage (op_spindle_set_state false 9000) Sample.ready).
  reflexivity.
Defined.

(** ** The pulse hook and the step counters *)

Lemma pulse_counts_and_forwards_witness :
  length (steps (st Sample.resumed)) = N_AXIS
  /\ (2 < N_AXIS)%nat
  /\ let s' := stepperPulseStart 5 Sample.resumed in
     steps_at 2 (steps (st s'))
       = (if Z.testbit 5 (Z.of_nat 2) then u32 (steps_at 2 (steps (st Sample.resumed)) + 1)
          else steps_at 2 (steps (st Sample.resumed)))
     /\ odometer_changed (st s') = true
     /\ odometers (st s') = odometers (st Sample.resumed)
     /\ env s' = set_trace
          (trace (env Sample.resumed)
           ++ [Call (stepper_pulse_start (saved (st Sample.resumed))) (arg_stepper 5)])
          (env Sample.resumed).
Proof.
  assert (2 < N_AXIS)%nat as HX by (simpl; lia).
  assert (length (steps (st Sample.resumed)) = N_AXIS) as Hlen by reflexivity.
  split; [exact Hlen |]. split; [exact HX |].
  apply (pulse_counts_and_forwards 5 2 Sample.resumed Hlen HX).
Defined.

Lemma counters_invariant_witness :
  reachable Sample.stepped /\ counters_ok Sample.stepped.
Proof.
  assert (reachable Sample.stepped) as Hreach
    by (apply reachable_step; exact resumed_reachable).
  split; [exact Hreach |].
  apply (counters_invariant Sample.stepped Hreach).
Defined.


(** ** Motor time and the flush *)

Lemma motor_time_since_last_motion_state_witness :
  forallb keeps_pending Sample.two_starts = true
  /\ odometer_changed (st Sample.resumed) || existsb is_pulse Sample.two_starts = true
  /\ in_motion 0 = false
  /\ motors (odometers (st (onStateChanged 0 5000 (run Sample.two_starts Sample.resumed))))
     = u64 (motors (odometers (st Sample.resumed))
            + u32 (5000 - last_motion_tick (state_ms (st Sample.resumed))
                            Sample.two_starts)).
Proof.
  split; [reflexivity |]. split; [reflexivity |]. split; [reflexivity |].
  apply (motor_time_since_last_motion_state Sample.two_starts 0 5000 Sample.resumed);
    reflexivity.
Defined.

(** The cycle announced at tick 1000 is not counted from tick 1000: the jog
    announced at tick 3000 restarted the interval. *)
Example two_starts_motor_time :
  last_motion_tick (state_ms (st Sample.resumed)) Sample.two_starts = 3000
  /\ motors (odometers (st (onStateChanged 0 5000 (run Sample.two_starts Sample.resumed))))
     = motors (odometers (st Sample.resumed)) + 2000.
Proof. vm_compute. split; reflexivity. Qed.

Lemma idle_notifications_count_once_witness :
  in_motion 0 = false
  /\ in_motion 16 = false
  /\ let s1 := onStateChanged 0 5000 Sample.stepped in
     let s2 := onStateChanged 16 9000 s1 in
     st s2 = st s1
     /\ nvs_mem (env s2) = nvs_mem (env s1)
     /\ forall address,
          writes_to address (trace (env s2)) = writes_to address (trace (env s1)).
Proof.
  split; [reflexivity |]. split; [reflexivity |].
  apply (idle_notifications_count_once 0 5000 16 9000 Sample.stepped); reflexivity.
Defined.

Lemma idle_axis_keeps_distance_witness :
  (1 < N_AXIS)%nat
  /\ length (steps (st Sample.resumed)) = N_AXIS
  /\ length (distance (odometers (st Sample.resumed))) = N_AXIS
  /\ steps_at 1 (steps (st Sample.resumed)) = 0
  /\ forallb keeps_pending Sample.short_move = true
  /\ pulses_on 1 Sample.short_move = 0
  /\ float_at 1 (distance (odometers
                    (st (onStateChanged 0 5000 (run Sample.short_move Sample.resumed)))))
     = float_at 1 (distance (odometers (st Sample.resumed))).
Proof.
  assert (1 < N_AXIS)%nat as HX by (simpl; lia).
  repeat (split; [first [exact HX | reflexivity] |]).
  apply (idle_axis_keeps_distance 1 Sample.short_move 0 5000 Sample.resumed HX);
    reflexivity.
Defined.

Lemma flush_writes_once_witness :
  in_motion 0 = false
  /\ odometer_changed (st Sample.stepped) = true
  /\ length (steps (st Sample.stepped)) = N_AXIS
  /\ let s' := onStateChanged 0 5000 Sample.stepped in
     Forall (fun n => n = 0) (steps (st s'))
     /\ odometer_changed (st s') = false
     /\ trace (env s')
        = trace (env Sample.stepped)
          ++ NvsWrite (odometers_address (st Sample.stepped)) (odometers (st s'))
             :: forwarded (on_state_change (saved (st Sample.stepped))) (arg_state 0)
     /\ in_step s'.
Proof.
  split; [reflexivity |]. split; [reflexivity |]. split; [reflexivity |].
  apply (flush_writes_once 0 5000 Sample.stepped); reflexivity.
Defined.

(** ** The report lines *)

Lemma hours_line_format_witness :
  0 <= 3660000 < 2 ^ 31 * 3600000
  /\ hours_line "MOTORHRS" 3660000
     = "MOTORHRS" +:+ " " +:+ pretty (3660000 / 3600000) +:+ ":"
         +:+ two_digits ((3660000 / 60000) mod 60).
Proof.
  assert (0 <= 3660000 < 2 ^ 31 * 3600000) as Hms by lia.
  split; [exact Hms |].
  apply (hours_line_format "MOTORHRS" 3660000 Hms).
Defined.

(** At 2^31 hours the hours, printed as a signed long, turn negative. *)
Example hours_line_at_2_31_hours :
  hours_line "MOTORHRS" (2 ^ 31 * 3600000) = "MOTORHRS -2147483648:00".
Proof. vm_compute. reflexivity. Qed.

(** ** Reset, then look back *)

Lemma reset_then_prev_reports_old_witness :
  reachable Sample.resumed
  /\ strcmp0 (strcaps "rst") "RST" = true
  /\ strcmp0 (strcaps "prev") "PREV" = true
  /\ let s1 := snd (odometer_command 0 (Some "rst"%string) Sample.resumed) in
     let r := odometer_command 0 (Some "prev"%string) s1 in
     fst r = Status_OK
     /\ trace (env (snd r)) = trace (env s1) ++ report_lines (odometers (st Sample.resumed))
     /\ odometers (st (snd r)) = zero_record
     /\ odometers_prv (st (snd r)) = odometers (st Sample.resumed).
Proof.
  split; [exact resumed_reachable |]. split; [reflexivity |]. split; [reflexivity |].
  apply (reset_then_prev_reports_old 0 0 "rst" "prev" Sample.resumed resumed_reachable);
    reflexivity.
Defined.

Lemma double_reset_clears_previous_witness :
  reachable Sample.resumed
  /\ strcmp0 (strcaps "rst") "RST" = true
  /\ strcmp0 (strcaps "RST") "RST" = true
  /\ let s2 := snd (odometer_command 0 (Some "RST"%string)
                      (snd (odometer_command 0 (Some "rst"%string) Sample.resumed))) in
     odometers_prv (st s2) = zero_record
     /\ previous_slot s2 = Some zero_record
     /\ odometers (st s2) = zero_record.
Proof.
  split; [exact resumed_reachable |]. split; [reflexivity |]. split; [reflexivity |].
  apply (double_reset_clears_previous 0 0 "rst" "RST" Sample.resumed resumed_reachable);
    reflexivity.
Defined.

(** ** Keeping the hooks *)

Lemma settings_change_keeps_pulse_chain_witness :
  stepper_pulse_start (saved (st Sample.resumed)) <> fn_stepperPulseStart
  /\ let s1 := onSettingsChanged Sample.resumed in
     hal_stepper_pulse_start (entries (env s1)) = fn_stepperPulseStart
     /\ stepper_pulse_start (saved (st s1)) <> fn_stepperPulseStart
     /\ stepper_pulse_start (saved (st s1))
        = (if decide (hal_stepper_pulse_start (entries (env Sample.resumed))
                      = fn_stepperPulseStart)
           then stepper_pulse_start (saved (st Sample.resumed))
           else hal_stepper_pulse_start (entries (env Sample.resumed)))
     /\ last (trace (env (stepperPulseStart 1 s1)))
        = Some (Call (stepper_pulse_start (saved (st s1))) (arg_stepper 1)).
Proof.
  assert (stepper_pulse_start (saved (st Sample.resumed)) <> fn_stepperPulseStart)
    as Hsaved by discriminate.
  split; [exact Hsaved |].
  apply (settings_change_keeps_pulse_chain 1 Sample.resumed Hsaved).
Defined.

Lemma ready_reachable : reachable Sample.ready.
Proof. apply reachable_step. exact fresh_reachable. Qed.

Lemma spindle_wrapper_never_wraps_itself_witness :
  reachable (step (op_spindle_selected (selected_spindle (env Sample.ready))) Sample.ready)
  /\ spindle_set_state_
       (saved (st (step (op_spindle_selected (selected_spindle (env Sample.ready)))
                     Sample.ready)))
     <> fn_onSpindleSetState.
Proof.
  assert (reachable (step (op_spindle_selected (selected_spindle (env Sample.ready)))
                       Sample.ready)) as Hreach
    by (apply reachable_step; exact ready_reachable).
  split; [exact Hreach |].
  apply (spindle_wrapper_never_wraps_itself _ Hreach).
Defined.

(** ** The spindle interval across a wrap of the tick counter *)

Lemma spindle_interval_across_tick_wrap_witness :
  0 < 4294967000 < 2 ^ 32
  /\ 0 <= 704 < 2 ^ 32
  /\ let s' := onSpindleSetState false 704 (onSpindleSetState true 4294967000 Sample.ready) in
     spindle (odometers (st s'))
       = u64 (spindle (odometers (st Sample.ready))
              + (if 4294967000 <=? 704 then 704 - 4294967000
                 else 704 - 4294967000 + 2 ^ 32))
     /\ spindle_ms (st s') = 0
     /\ nvs_mem (env s') = nvs_mem (env Sample.ready)
     /\ trace (env s')
        = trace (env Sample.ready)
          ++ [Call (spindle_set_state_ (saved (st Sample.ready))) (arg_spindle_state true);
              Call (spindle_set_state_ (saved (st Sample.ready))) (arg_spindle_state false);
              TaskAddImmediate odometers_write_task].
Proof.
  assert (0 < 4294967000 < 2 ^ 32) as Hon by lia.
  assert (0 <= 704 < 2 ^ 32) as Hoff by lia.
  split; [exact Hon |]. split; [exact Hoff |].
  apply (spindle_interval_across_tick_wrap 4294967000 704 Sample.ready Hon Hoff).
Defined.

(** 296 ticks before the wrap and 704 after it are one second. *)
Example spindle_interval_wrapped :
  spindle (odometers (st (onSpindleSetState false 704
                            (onSpindleSetState true 4294967000 Sample.ready))))
  = 1000.
Proof. vm_compute. reflexivity. Qed.

End Scenarios.
